(** * cinetech: conversation context, reply pipeline and favourites tools

    A shallow embedding of
      - [cinetech/domain/memory/conversation_context.py]  (module [ConversationContext]),
      - [cinetech/application/chat_service/chat_service.py] (module [ChatService]),
      - [cinetech/domain/tools/tmdb_tools.py]              (modules [TmdbTools], [MovieDetails]),
      - [cinetech/infrastructure/api/tmdb/themoviedb.py]   (module [TMDbClient]),
      - [cinetech/domain/agent.py] and [cinetech/infrastructure/api/main.py] (module [Agent]),
      - [cinetech/application/ingestion_service/ingestion_service.py] (module [Ingestion]),
    together with the small fragment of the Python runtime they rely on
    (module [Py]): dynamically typed values, [str.strip], truthiness,
    slicing with negative indices and exceptions.

    Python statements that mutate [self] are state transformers; a raised
    exception is a value of [outcome], and the state that comes with it is
    the state at the moment of the raise (Python does not roll back). *)

From Stdlib Require Import List String Ascii ZArith Lia Bool DecimalString.
Import ListNotations.

Set Warnings "-register-all".

Open Scope string_scope.
Open Scope list_scope.

(* ===================================================================== *)
(** ** The fragment of the Python runtime used by the sources            *)
(* ===================================================================== *)

Module Py.

(** Exception classes that occur in the modelled code. All of them derive
    from [Exception]; [JSONDecodeError] derives from [ValueError]. Only
    the class is kept: the message of an exception is logged or copied
    into another message, and no control flow depends on it. *)
Inductive exn : Type :=
| ValueError
| TypeError
| AttributeError
| KeyError
| IndexError
| UnboundLocalError
| PyException.

Definition is_ValueError (e : exn) : bool :=
  match e with ValueError => true | _ => false end.

(** The result of evaluating an expression or a call. *)
Inductive outcome (A : Type) : Type :=
| Ret (a : A)
| Raise (e : exn).
Arguments Ret {A} a.
Arguments Raise {A} e.

Definition obind {A B} (m : outcome A) (k : A -> outcome B) : outcome B :=
  match m with
  | Ret a => k a
  | Raise e => Raise e
  end.

(** Dynamically typed values. A [str] holds code points below 256; a
    [dict] has [str] keys and keeps insertion order; [VObj] is an instance
    of some class with its attributes (a LangChain message for example). *)
Inductive pyval : Type :=
| VNone
| VBool (b : bool)
| VInt (z : Z)
| VStr (s : string)
| VList (l : list pyval)
| VDict (d : list (string * pyval))
| VObj (cls : string) (attrs : list (string * pyval)).

Definition pydict : Type := list (string * pyval).

(** [key in d] and [d.get(key)] / [d.get(key, default)]. *)
Fixpoint dict_lookup (key : string) (d : pydict) : option pyval :=
  match d with
  | [] => None
  | (k, v) :: rest => if String.eqb k key then Some v else dict_lookup key rest
  end.

Definition dict_contains (key : string) (d : pydict) : bool :=
  match dict_lookup key d with Some _ => true | None => false end.

Definition dict_get (key : string) (default : pyval) (d : pydict) : pyval :=
  match dict_lookup key d with Some v => v | None => default end.

(** [bool(v)]: the truth value used by [if v:] and [not v]. An instance
    of a class without [__bool__] and [__len__] is true. *)
Definition truthy (v : pyval) : bool :=
  match v with
  | VNone => false
  | VBool b => b
  | VInt z => negb (z =? 0)%Z
  | VStr s => negb (String.eqb s "")
  | VList l => match l with [] => false | _ => true end
  | VDict d => match d with [] => false | _ => true end
  | VObj _ _ => true
  end.

(** [c.isspace()] for a code point below 256: TAB, LF, VT, FF, CR, the
    separators FS, GS, RS, US, the space, NEL and the no-break space. *)
Definition isspace (c : ascii) : bool :=
  let n := nat_of_ascii c in
  (((9 <=? n) && (n <=? 13)) || ((28 <=? n) && (n <=? 32))
   || (n =? 133) || (n =? 160))%nat.

Fixpoint lstrip (s : string) : string :=
  match s with
  | EmptyString => EmptyString
  | String c rest => if isspace c then lstrip rest else s
  end.

Fixpoint rstrip (s : string) : string :=
  match s with
  | EmptyString => EmptyString
  | String c rest =>
      match rstrip rest with
      | EmptyString => if isspace c then EmptyString else String c EmptyString
      | kept => String c kept
      end
  end.

(** [s.strip()] *)
Definition strip (s : string) : string := rstrip (lstrip s).

(** [sep.join(parts)] on a list of [str]. *)
Fixpoint join (sep : string) (parts : list string) : string :=
  match parts with
  | [] => ""
  | [p] => p
  | p :: rest => (p ++ sep ++ join sep rest)%string
  end.

(** [str(z)] for an [int]. *)
Definition str_int (z : Z) : string := NilZero.string_of_int (Z.to_int z).

(** The slice [l[i:]]: a negative [i] counts from the end, and the start
    is clipped to the list. *)
Definition slice_from {A : Type} (i : Z) (l : list A) : list A :=
  let n := Z.of_nat (List.length l) in
  let start := if (i <? 0)%Z then Z.max (n + i) 0 else Z.min i n in
  skipn (Z.to_nat start) l.

(** [s.capitalize()]: first character upper case, the others lower case,
    on the letters of the code points below 256. The letters at 181, 223
    and 255 have no upper-case form below 256 and are left as they are;
    the roles the method is applied to are ASCII. *)
Definition upper (c : ascii) : ascii :=
  let n := nat_of_ascii c in
  if (((97 <=? n) && (n <=? 122))
      || ((224 <=? n) && (n <=? 254) && negb (n =? 247)))%nat
  then ascii_of_nat (n - 32) else c.

Definition lower (c : ascii) : ascii :=
  let n := nat_of_ascii c in
  if (((65 <=? n) && (n <=? 90))
      || ((192 <=? n) && (n <=? 222) && negb (n =? 215)))%nat
  then ascii_of_nat (n + 32) else c.

Fixpoint lower_all (s : string) : string :=
  match s with
  | EmptyString => EmptyString
  | String c rest => String (lower c) (lower_all rest)
  end.

Definition capitalize (s : string) : string :=
  match s with
  | EmptyString => EmptyString
  | String c rest => String (upper c) (lower_all rest)
  end.

Definition nl : string := String (ascii_of_nat 10) EmptyString.

End Py.
Import Py.

(** The last [n] elements of a list, in their order. *)
Definition lastn {A : Type} (n : nat) (l : list A) : list A :=
  skipn (List.length l - n) l.

(* ===================================================================== *)
(** ** conversation_context.py                                           *)
(* ===================================================================== *)

Module ConversationContext.

(** A message is the dict [{"role": role, "content": content}]. *)
Record Message : Type := mkMessage {
  role : string;
  content : pyval
}.

(** The instance attributes set by [__init__]. [movies] is a dict from a
    movie id to its metadata dict, in insertion order. *)
Record t : Type := mk {
  max_history : Z;
  messages : list Message;
  movies : list (string * pydict);
  chromadb_results : list pydict
}.

Definition set_messages (self : t) (ms : list Message) : t :=
  {| max_history := max_history self;
     messages := ms;
     movies := movies self;
     chromadb_results := chromadb_results self |}.

(** Methods run on [self] and return or raise. *)
Definition M (A : Type) : Type := t -> outcome A * t.

Definition ret {A} (a : A) : M A := fun self => (Ret a, self).
Definition raise {A} (e : exn) : M A := fun self => (Raise e, self).
Definition lift {A} (o : outcome A) : M A := fun self => (o, self).
Definition bind {A B} (m : M A) (k : A -> M B) : M B :=
  fun self =>
    match m self with
    | (Ret a, self') => k a self'
    | (Raise e, self') => (Raise e, self')
    end.

(** [try: body   except Exception: handler] *)
Definition try_except {A} (body : M A) (handler : exn -> M A) : M A :=
  fun self =>
    match body self with
    | (Ret a, self') => (Ret a, self')
    | (Raise e, self') => handler e self'
    end.

Declare Scope py_scope.
Delimit Scope py_scope with py.
Notation "x <- m ;; k" := (bind m (fun x => k))
  (at level 61, m at next level, right associativity) : py_scope.
Notation "m ;;; k" := (bind m (fun _ => k))
  (at level 61, right associativity) : py_scope.
Open Scope py_scope.

(** [__init__(self, max_history=10)] *)
Definition __init__ (max_history : option Z) : t :=
  {| max_history := match max_history with Some n => n | None => 10%Z end;
     messages := [];
     movies := [];
     chromadb_results := [] |}.

(** *** get_favorite_movies *)

Definition no_favorites : string := "No favorite movies stored.".

(** [meta.get("favorite") is True] *)
Definition is_favorite (meta : pydict) : bool :=
  match dict_lookup "favorite" meta with
  | Some (VBool true) => true
  | _ => false
  end.

(** The elements that [list.extend(v)] adds: those of a list, the
    characters of a str, the keys of a dict; other values are not
    iterable. *)
Fixpoint chars (s : string) : list pyval :=
  match s with
  | EmptyString => []
  | String c rest => VStr (String c EmptyString) :: chars rest
  end.

Definition iterate (v : pyval) : outcome (list pyval) :=
  match v with
  | VList l => Ret l
  | VStr s => Ret (chars s)
  | VDict d => Ret (map (fun kv => VStr (fst kv)) d)
  | _ => Raise TypeError
  end.

(** [sep.join(items)]: every item has to be a str. *)
Fixpoint as_strs (items : list pyval) : outcome (list string) :=
  match items with
  | [] => Ret []
  | VStr s :: rest => obind (as_strs rest) (fun ss => Ret (s :: ss))
  | _ :: _ => Raise TypeError
  end.

Definition join_values (sep : string) (items : list pyval) : outcome string :=
  obind (as_strs items) (fun ss => Ret (join sep ss)).

(** [for meta in values: fav_list.extend(meta.get("favorite_movies", []))] *)
Fixpoint extend_all (fav_list : list pyval) (values : list pydict)
  : outcome (list pyval) :=
  match values with
  | [] => Ret fav_list
  | meta :: rest =>
      obind (iterate (dict_get "favorite_movies" (VList []) meta))
            (fun items => extend_all (fav_list ++ items) rest)
  end.

Definition favorite_movies_of (values : list pydict) : outcome string :=
  let favorites := filter is_favorite values in
  match favorites with
  | [] =>
      obind (extend_all [] values) (fun fav_list =>
        if truthy (VList fav_list) then join_values ", " fav_list
        else Ret no_favorites)
  | _ =>
      obind (join_values ", "
               (map (dict_get "title" (VStr ""))
                    (filter (fun m => truthy (dict_get "title" VNone m)) favorites)))
            (fun joined =>
               Ret (if truthy (VStr joined) then joined else no_favorites))
  end.

Definition get_favorite_movies : M string :=
  fun self => (favorite_movies_of (map snd (movies self)), self).

(** *** _add_message and its three wrappers *)

Definition role_allowed (role : string) : bool :=
  String.eqb role "user" || String.eqb role "assistant" || String.eqb role "system".

Definition _add_message (role : string) (content : pyval) : M unit :=
  fun self =>
    if negb (role_allowed role) then (Raise ValueError, self)
    else
      let appended := set_messages self (messages self ++ [mkMessage role content]) in
      let trimmed :=
        if (Z.of_nat (List.length (messages appended)) >? max_history appended)%Z
        then set_messages appended
               (slice_from (- max_history appended) (messages appended))
        else appended in
      (Ret tt, trimmed).

Definition add_user_message (content : pyval) : M unit :=
  _add_message "user" content.

Definition add_assistant_message (content : pyval) : M unit :=
  _add_message "assistant" content.

Definition add_system_message (content : pyval) : M unit :=
  _add_message "system" content.

(** *** get_recent *)

Definition get_recent (n : option Z) : M (list Message) :=
  fun self =>
    match n with
    | None => (Ret (messages self), self)
    | Some n =>
        if (n >=? Z.of_nat (List.length (messages self)))%Z
        then (Ret (messages self), self)
        else (Ret (slice_from (- n) (messages self)), self)
    end.

(** *** build_context_history *)

Section Rendering.

(** [repr(v)] for a value that is not a str: the displayable form of
    lists, dicts and class instances is given by their classes. *)
Variable py_repr : pyval -> string.

(** [str(v)], also what an f-string field [{v}] inserts. *)
Definition py_str (v : pyval) : string :=
  match v with
  | VStr s => s
  | _ => py_repr v
  end.

Definition build_context_history (max_messages : option Z) : M string :=
  msgs <- get_recent max_messages ;;
  ret (join nl
         (map (fun m => (capitalize (role m) ++ ": " ++ py_str (content m))%string)
              msgs)).

End Rendering.

(** *** clear *)
Definition clear : M unit :=
  fun self =>
    (Ret tt, {| max_history := max_history self;
                messages := [];
                movies := [];
                chromadb_results := [] |}).

End ConversationContext.

(* ===================================================================== *)
(** ** chat_service.py                                                   *)
(* ===================================================================== *)

Module ChatService.
Import ConversationContext.

(** The dict built by [_build_prompt_vars]. *)
Record PromptVars : Type := mkPromptVars {
  conversation_history : string;
  favorite_movies : string;
  movies_list : pyval;
  user_message : string
}.

Definition unable_to_reply : string :=
  "Sorry, I am unable to generate a reply at the moment. Please try again later.".

Definition chromadb_unavailable : string :=
  "Sorry, ChromaDB search is currently unavailable.".

(** [v.strip()]: only a str has the method. *)
Definition call_strip (v : pyval) : outcome string :=
  match v with
  | VStr s => Ret (strip s)
  | _ => Raise AttributeError
  end.

(** [getattr(obj, name, default)]: of the modelled values only a class
    instance carries attributes of its own. *)
Definition getattr (obj : pyval) (name : string) (default : pyval) : pyval :=
  match obj with
  | VObj _ attrs => dict_get name default attrs
  | _ => default
  end.

Fixpoint last_char (s : string) : string :=
  match s with
  | EmptyString => EmptyString
  | String c EmptyString => s
  | String _ rest => last_char rest
  end.

(** [v[-1]]: the last element of a list, the last character of a str; a
    dict with str keys has no key [-1], and the other values cannot be
    indexed. *)
Definition index_last (v : pyval) : outcome pyval :=
  match v with
  | VList l => match l with [] => Raise IndexError | _ => Ret (last l VNone) end
  | VStr s => match s with EmptyString => Raise IndexError | _ => Ret (VStr (last_char s)) end
  | VDict _ => Raise KeyError
  | _ => Raise TypeError
  end.

Section Pipeline.

(** The displayable form of non-str values (see [py_str]). *)
Variable py_repr : pyval -> string.

(** The collaborators: the semantic search, the agent factory and the
    agent's [invoke] on the formatted prompt. Each returns or raises;
    none of them is handed the conversation context. *)
Variable search_movies : string -> Z -> outcome pyval.
Variable start_model : outcome unit.
Variable agent_invoke : string -> outcome pyval.

Local Abbreviation py_str := (py_str py_repr).

(** [chat_prompt.format] applied to the prompt variables, with the
    template of prompt_templates.py. *)
Definition chat_prompt_format (pv : PromptVars) : string :=
  ("Previous conversation:" ++ nl ++ conversation_history pv ++ nl ++ nl
   ++ "User's favorite movies:" ++ nl ++ favorite_movies pv ++ nl ++ nl
   ++ "User request:" ++ nl ++ user_message pv ++ nl
   ++ "Movies to suggest:" ++ nl ++ py_str (movies_list pv) ++ nl ++ nl)%string.

Definition _build_prompt_vars (user_message : string) (reply : pyval)
  : M PromptVars :=
  history <- build_context_history py_repr None ;;
  favorites <- get_favorite_movies ;;
  ret (mkPromptVars history favorites reply user_message).

(** Lines 109-126 of [_chat_with_agent]: the final message of the
    agent's response. *)
Definition extract_reply (response : pyval) : outcome string :=
  match response with
  | VDict d =>
      if dict_contains "messages" d then
        let messages := dict_get "messages" VNone d in
        obind
          (if truthy messages then
             obind (index_last messages) (fun last_msg_obj =>
               match last_msg_obj with
               | VDict md =>
                   Ret (dict_get "content" (VStr (py_str last_msg_obj)) md)
               | _ =>
                   Ret (getattr last_msg_obj "content" (VStr (py_str last_msg_obj)))
               end)
           else Ret VNone)
          (fun last_msg =>
             let last_msg :=
               match last_msg with
               | VNone => VStr (py_str response)
               | _ => last_msg
               end in
             call_strip last_msg)
      else Ret (py_str response)
  | VStr s => Ret (strip s)
  | _ => Ret (py_str response)
  end.

(** The two handlers of [_chat_with_agent]: a [ValueError] is raised
    again as a [ValueError], anything else as an [Exception]. *)
Definition rewrap {A} (o : outcome A) : outcome A :=
  match o with
  | Ret a => Ret a
  | Raise e => if is_ValueError e then Raise ValueError else Raise PyException
  end.

Definition _chat_with_agent (prompt_vars : PromptVars) : outcome string :=
  rewrap
    (obind start_model (fun _ =>
       let formatted_prompt := chat_prompt_format prompt_vars in
       obind (agent_invoke formatted_prompt) extract_reply)).

(** Reading a local variable that no assignment has bound yet. *)
Definition read_local {A} (v : option A) : M A :=
  match v with
  | Some a => ret a
  | None => raise UnboundLocalError
  end.

(** [isinstance(user_message, str)] and then [user_message.strip()] *)
Definition valid_user_message (user_message : pyval) : option string :=
  match user_message with
  | VStr s => if truthy (VStr (strip s)) then Some s else None
  | _ => None
  end.

Definition generate_reply (user_message : pyval) (chromadb_test : bool)
  : M pyval :=
  match valid_user_message user_message with
  | None => raise ValueError
  | Some text =>
      add_user_message user_message ;;;
      reply <-
        (if chromadb_test then
           try_except (lift (search_movies text 5))
                      (fun _ => ret (VStr chromadb_unavailable))
         else
           (* first [try]: binds [llama_reply] when the search returns,
              [reply] when it raises *)
           locals <-
             try_except
               (found <- lift (search_movies text 5) ;;
                ret (Some found, None))
               (fun _ => ret (None, Some (VStr unable_to_reply))) ;;
           let llama_reply : option pyval := fst locals in
           (* second [try] *)
           try_except
             (movies <- read_local llama_reply ;;
              prompt_vars <- _build_prompt_vars text movies ;;
              answer <- lift (_chat_with_agent prompt_vars) ;;
              ret (VStr answer))
             (fun _ => ret (VStr unable_to_reply))) ;;
      add_assistant_message reply ;;;
      ret reply
  end.

End Pipeline.

End ChatService.

(* ===================================================================== *)
(** ** tmdb_tools.py                                                     *)
(* ===================================================================== *)

Module TmdbTools.

(** What is found at [FAVOURITE_PATH]: no file, a file that [json.load]
    rejects (with the text of its error), or the JSON array of movie ids
    that [json.dump] wrote there. *)
Inductive file_state : Type :=
| Absent
| Unparsable (error : string)
| Stored (ids : list Z).

(** The file system as far as the tools see it; [write_error] is the
    error raised when the file is opened for writing, if any. *)
Record World : Type := mkWorld {
  favourite_file : file_state;
  write_error : option string
}.

Definition write_file (ids : list Z) (w : World) : outcome unit * World :=
  match write_error w with
  | Some _ => (Raise PyException, w)
  | None => (Ret tt, {| favourite_file := Stored ids; write_error := None |})
  end.

Definition contains (x : Z) (l : list Z) : bool := existsb (Z.eqb x) l.

(** [l.remove(x)]: the first occurrence goes. *)
Fixpoint remove_first (x : Z) (l : list Z) : list Z :=
  match l with
  | [] => []
  | y :: rest => if (y =? x)%Z then rest else y :: remove_first x rest
  end.

(** The loop of [save_favourites]. *)
Definition attach (existing_favs favs : list Z) : list Z :=
  fold_left (fun acc fav => if contains fav acc then acc else acc ++ [fav])
            favs existing_favs.

Definition save_favourites (favs : list Z) (w : World) : World :=
  let existing_favs :=
    match favourite_file w with
    | Absent => []
    | Unparsable _ => []
    | Stored ids => ids
    end in
  (* an error of the write is logged by the outer handler *)
  snd (write_file (attach existing_favs favs) w).

Section Tools.

(** [search_movie_id]: the id of the first match of the catalogue
    search (an integer of the catalogue), [None] when there is none or
    the search fails; the function catches every exception itself. *)
Variable search_movie_id : string -> option Z.

(** [not movie_id] *)
Definition resolved (movie_id : option Z) : option Z :=
  match movie_id with
  | Some id => if (id =? 0)%Z then None else Some id
  | None => None
  end.

(** [AddFavouriteTool._run] *)
Definition AddFavouriteTool_run (movie_name : string) (w : World)
  : string * World :=
  match resolved (search_movie_id movie_name) with
  | None =>
      (("Movie '" ++ movie_name ++ "' not found. Cannot add to favourites.")%string, w)
  | Some movie_id =>
      let w' := save_favourites [movie_id] w in
      (("Added " ++ str_int movie_id ++ " to favourites.")%string, w')
  end.

(** [DeleteFavouriteTool._run]; every raise inside it ends in the
    handler that returns the "Error deleting favourite" text. *)
Definition DeleteFavouriteTool_run (movie_name : string) (w : World)
  : string * World :=
  match resolved (search_movie_id movie_name) with
  | None =>
      (("Movie '" ++ movie_name ++ "' not found. Cannot delete from favourites.")%string, w)
  | Some movie_id =>
      let error_text (e : string) :=
        ("Error deleting favourite " ++ str_int movie_id ++ ": " ++ e)%string in
      let loaded : string + list Z :=
        match favourite_file w with
        | Absent => inr []
        | Unparsable e => inl e
        | Stored ids => inr ids
        end in
      match loaded with
      | inl e => (error_text e, w)
      | inr fav_ids =>
          if contains movie_id fav_ids then
            match write_error w with
            | Some e => (error_text e, w)
            | None =>
                (("Deleted " ++ str_int movie_id ++ " from favourites.")%string,
                 snd (write_file (remove_first movie_id fav_ids) w))
            end
          else
            (("Movie ID " ++ str_int movie_id ++ " not found in favourites.")%string, w)
      end
  end.

End Tools.

End TmdbTools.

(* ===================================================================== *)
(** ** The behaviour the specification describes, in its own words       *)
(* ===================================================================== *)

Module Spec.
Import ConversationContext.

(** The title of an entry, when it has one that is a non-empty text. *)
Definition title_of (meta : pydict) : option string :=
  match dict_lookup "title" meta with
  | Some (VStr s) => if String.eqb s "" then None else Some s
  | _ => None
  end.

Fixpoint texts (items : list pyval) : list string :=
  match items with
  | [] => []
  | VStr s :: rest => s :: texts rest
  | _ :: rest => texts rest
  end.

(** The [favorite_movies] list of an entry, empty when it has none. *)
Definition listed_of (meta : pydict) : list string :=
  match dict_lookup "favorite_movies" meta with
  | Some (VList l) => texts l
  | _ => []
  end.

Definition carries_list (meta : pydict) : bool :=
  dict_contains "favorite_movies" meta.

Fixpoint present {A} (l : list (option A)) : list A :=
  match l with
  | [] => []
  | Some a :: rest => a :: present rest
  | None :: rest => present rest
  end.

(** Tier 1 of both readings: the titles of the flagged entries. *)
Definition flagged_titles (flagged : list pydict) : string :=
  match present (map title_of flagged) with
  | [] => "No favorite movies stored."
  | titles => join ", " titles
  end.

(** The three tiers as the specification words them: tier 2 applies as
    soon as some entry carries a [favorite_movies] list. *)
Definition favorites_summary_as_worded (entries : list pydict) : string :=
  match filter is_favorite entries with
  | [] =>
      if existsb carries_list entries
      then join ", " (flat_map listed_of entries)
      else "No favorite movies stored."
  | flagged => flagged_titles flagged
  end.

(** The three tiers with tier 2 applying when the flattened lists hold
    at least one title. *)
Definition favorites_summary (entries : list pydict) : string :=
  match filter is_favorite entries with
  | [] =>
      match flat_map listed_of entries with
      | [] => "No favorite movies stored."
      | listed => join ", " listed
      end
  | flagged => flagged_titles flagged
  end.

(** Entries as the data model has them: a title is a text when present,
    a [favorite_movies] field is a list of texts when present. Only the
    fields that the tier in force reads are constrained. *)
Definition typed_title (meta : pydict) : bool :=
  match dict_lookup "title" meta with
  | None | Some (VStr _) => true
  | _ => false
  end.

Definition is_text (v : pyval) : bool :=
  match v with VStr _ => true | _ => false end.

Definition typed_list (meta : pydict) : bool :=
  match dict_lookup "favorite_movies" meta with
  | None => true
  | Some (VList l) => forallb is_text l
  | _ => false
  end.

Definition well_typed (entries : list pydict) : bool :=
  match filter is_favorite entries with
  | [] => forallb typed_list entries
  | flagged => forallb typed_title flagged
  end.

(** The content field of a message of the agent's response. *)
Definition content_of (message : pyval) : option pyval :=
  match message with
  | VDict d => dict_lookup "content" d
  | VObj _ attrs => dict_lookup "content" attrs
  | _ => None
  end.

(** The favourites file is absent or is not JSON. *)
Definition unreadable (w : TmdbTools.World) : Prop :=
  TmdbTools.favourite_file w = TmdbTools.Absent
  \/ exists error, TmdbTools.favourite_file w = TmdbTools.Unparsable error.

(** A response that is a dict with a [messages] entry. *)
Definition has_messages (response : pyval) : bool :=
  match response with
  | VDict d => dict_contains "messages" d
  | _ => false
  end.

End Spec.

(* ===================================================================== *)
(** ** Concrete collaborators and states used in the examples            *)
(* ===================================================================== *)

Module Samples.
Import ConversationContext ChatService TmdbTools.

(** A displayable form that tells values of different shapes apart. *)
Definition sample_repr (v : pyval) : string :=
  match v with
  | VNone => "None"
  | VBool true => "True"
  | VBool false => "False"
  | VInt z => str_int z
  | VStr s => s
  | VList l => ("[" ++ str_int (Z.of_nat (List.length l)) ++ " items]")%string
  | VDict d => ("{" ++ join ", " (map fst d) ++ "}")%string
  | VObj cls _ => ("<" ++ cls ++ ">")%string
  end.

Definition search_finds (found : pyval) : string -> Z -> outcome pyval :=
  fun _ _ => Ret found.

Definition search_down : string -> Z -> outcome pyval :=
  fun _ _ => Raise PyException.

Definition agent_ready : outcome unit := Ret tt.
Definition agent_unavailable : outcome unit := Raise PyException.

Definition agent_answers (response : pyval) : string -> outcome pyval :=
  fun _ => Ret response.

Definition agent_fails : string -> outcome pyval :=
  fun _ => Raise PyException.

Definition one_movie : pyval :=
  VList [VDict [("title", VStr "Heat"); ("year", VStr "1995")]].

Definition fresh : t := __init__ None.

Definition turn (q a : string) : list Message :=
  [mkMessage "user" (VStr q); mkMessage "assistant" (VStr a)].

(** A default context after five turns: the history is full. *)
Definition full_history : t :=
  set_messages fresh
    (turn "q1" "a1" ++ turn "q2" "a2" ++ turn "q3" "a3"
     ++ turn "q4" "a4" ++ turn "q5" "a5").

Definition two_messages : t := set_messages fresh (turn "q1" "a1").

(** A structured response whose last message has a content that is a
    list of blocks, and one whose last message has content [None]. *)
Definition blocks_response : pyval :=
  VDict [("messages",
          VList [VObj "HumanMessage" [("content", VStr "hi")];
                 VObj "AIMessage" [("content", VList [VStr "Watch Heat."])]])].

Definition none_response : pyval :=
  VDict [("messages", VList [VDict [("role", VStr "assistant"); ("content", VNone)]])].

Definition text_response : pyval :=
  VDict [("messages",
          VList [VObj "HumanMessage" [("content", VStr "hi")];
                 VObj "AIMessage" [("content", VStr "  Watch Heat. ")]])].

Definition sample_vars : PromptVars :=
  mkPromptVars "User: hi" "No favorite movies stored." one_movie "hi".

(** An entity map whose only entry carries an empty list of favourites,
    and the map of the specification's scenario. *)
Definition empty_list_entry : t :=
  {| max_history := 10; messages := [];
     movies := [("603", [("title", VStr "The Matrix"); ("favorite_movies", VList [])])];
     chromadb_results := [] |}.

Definition scenario_entities : t :=
  {| max_history := 10; messages := [];
     movies := [("1", [("title", VStr "A"); ("favorite", VBool true)]);
                ("2", [("title", VStr "B"); ("favorite_movies", VList [VStr "C"])])];
     chromadb_results := [] |}.

(** The catalogue lookup resolving every name to the id 27205. *)
Definition finds_inception : string -> option Z := fun _ => Some 27205%Z.

Definition corrupt_file : World :=
  {| favourite_file := Unparsable "Expecting value: line 1 column 1 (char 0)";
     write_error := None |}.

Definition no_file : World :=
  {| favourite_file := Absent; write_error := None |}.

End Samples.

(* ===================================================================== *)
(** ** Sequences of appends                                              *)
(* ===================================================================== *)

Module Runs.
Import ConversationContext.

(** The context after [_add_message(role, content)]. *)
Definition after_add (self : t) (item : string * pyval) : t :=
  snd (_add_message (fst item) (snd item) self).

(** The context after a sequence of appends, first item first. *)
Definition after_adds (self : t) (items : list (string * pyval)) : t :=
  fold_left after_add items self.

Definition as_message (item : string * pyval) : Message :=
  mkMessage (fst item) (snd item).

Definition allowed (item : string * pyval) : bool := role_allowed (fst item).

(** The transcript that [build_context_history()] renders. *)
Definition transcript (py_repr : pyval -> string) (self : t) : string :=
  join nl
    (map (fun m => (capitalize (role m) ++ ": " ++ py_str py_repr (content m))%string)
         (messages self)).

(** The reply of one turn as a function of what the collaborators do,
    for a context [self] that already holds the user message. *)
Definition final_reply
    (py_repr : pyval -> string)
    (search_movies : string -> Z -> outcome pyval)
    (start_model : outcome unit)
    (agent_invoke : string -> outcome pyval)
    (text : string) (chromadb_test : bool) (self : t) : pyval :=
  match search_movies text 5%Z with
  | Raise _ =>
      if chromadb_test then VStr ChatService.chromadb_unavailable
      else VStr ChatService.unable_to_reply
  | Ret found =>
      if chromadb_test then found
      else
        match favorite_movies_of (map snd (movies self)) with
        | Raise _ => VStr ChatService.unable_to_reply
        | Ret favorites =>
            match ChatService._chat_with_agent py_repr start_model agent_invoke
                    (ChatService.mkPromptVars (transcript py_repr self)
                       favorites found text) with
            | Raise _ => VStr ChatService.unable_to_reply
            | Ret answer => VStr answer
            end
        end
  end.

(** A computation that leaves the context as it found it. *)
Definition read_only {A} (m : M A) : Prop := forall self, snd (m self) = self.

(** A computation that always returns. *)
Definition returns {A} (m : M A) : Prop :=
  forall self, exists a, fst (m self) = Ret a.

End Runs.

(* ===================================================================== *)
(** ** Predicates on histories                                           *)
(* ===================================================================== *)

Module Props.
Import ConversationContext.

(** Every message of the history carries one of the three roles. *)
Definition roles_ok (self : t) : Prop :=
  Forall (fun m => role_allowed (role m) = true) (messages self).

(** The label a transcript line starts with. *)
Definition speaker (role : string) : string :=
  if String.eqb role "user" then "User"
  else if String.eqb role "assistant" then "Assistant"
  else "System".

(** A value that [list.extend] cannot iterate over. *)
Definition not_iterable (v : pyval) : bool :=
  match v with
  | VList _ | VStr _ | VDict _ => false
  | _ => true
  end.

Fixpoint letters (s : string) : list string :=
  match s with
  | EmptyString => []
  | String c rest => String c EmptyString :: letters rest
  end.

Fixpoint all_space (s : string) : bool :=
  match s with
  | EmptyString => true
  | String c rest => isspace c && all_space rest
  end.

(** The list held by a field of a dict, empty when the field is absent. *)
Definition field_list (key : string) (d : pydict) : list pyval :=
  match dict_lookup key d with
  | Some (VList l) => l
  | _ => []
  end.

Definition list_or_absent (key : string) (d : pydict) : bool :=
  match dict_lookup key d with
  | None | Some (VList _) => true
  | _ => false
  end.

Definition is_dict (v : pyval) : bool :=
  match v with VDict _ => true | _ => false end.

(** A crew member whose job is Director. *)
Definition directs (member : pyval) : bool :=
  match member with
  | VDict d =>
      match dict_lookup "job" d with
      | Some (VStr job) => String.eqb job "Director"
      | _ => false
      end
  | _ => false
  end.

(** A dict that holds every key of [keys]. *)
Definition has_keys (keys : list string) (v : pyval) : bool :=
  match v with
  | VDict d => forallb (fun key => dict_contains key d) keys
  | _ => false
  end.

Definition text_keys : list string :=
  ["title"; "genres"; "director"; "cast"; "year"; "overview"].

Definition ingest_keys : list string :=
  ["title"; "genres"; "director"; "cast"; "year"; "overview"; "rating"; "id"].

End Props.

(* ===================================================================== *)
(** ** themoviedb.py                                                     *)
(* ===================================================================== *)

Module TMDbClient.

(** [v[key]] for a str key: a dict raises [KeyError] on a missing key, the
    other values cannot be indexed by a str. *)
Definition subscript (v : pyval) (key : string) : outcome pyval :=
  match v with
  | VDict d =>
      match dict_lookup key d with
      | Some x => Ret x
      | None => Raise KeyError
      end
  | _ => Raise TypeError
  end.

(** [v.get(key, default)]: a method of dicts only. *)
Definition get (v : pyval) (key : string) (default : pyval) : outcome pyval :=
  match v with
  | VDict d => Ret (dict_get key default d)
  | _ => Raise AttributeError
  end.

Fixpoint first_chars (n : nat) (s : string) : string :=
  match n, s with
  | S n', String c rest => String c (first_chars n' rest)
  | _, _ => EmptyString
  end.

(** The slice [v[:n]] of a list or a str; the other values of a decoded
    JSON body cannot be sliced. *)
Definition slice_to (n : nat) (v : pyval) : outcome pyval :=
  match v with
  | VList l => Ret (VList (firstn n l))
  | VStr s => Ret (VStr (first_chars n s))
  | _ => Raise TypeError
  end.

(** [__init__(self, api_key=None)]: the key kept in [self.api_key];
    [TMDB_API_KEY] is the module constant read from the environment. *)
Definition __init__ (api_key : option string) (TMDB_API_KEY : string)
  : outcome string :=
  let chosen :=
    match api_key with
    | Some k => if truthy (VStr k) then k else TMDB_API_KEY
    | None => TMDB_API_KEY
    end in
  if truthy (VStr chosen) then Ret chosen else Raise ValueError.

(** [member.get("job") == "Director"] *)
Definition is_director (member : pyval) : outcome bool :=
  obind (get member "job" VNone) (fun job =>
    Ret (match job with
         | VStr s => String.eqb s "Director"
         | _ => false
         end)).

Fixpoint directors_of (crew : list pyval) : outcome (list pyval) :=
  match crew with
  | [] => Ret []
  | member :: rest =>
      obind (is_director member) (fun keep =>
        obind (directors_of rest) (fun others =>
          Ret (if keep then member :: others else others)))
  end.

(** What [get_movie_credits] makes of the decoded body [data] of the
    response. *)
Definition credits_of (data : pyval) : outcome pyval :=
  obind (get data "cast" (VList [])) (fun all_cast =>
  obind (slice_to 5 all_cast) (fun cast =>
  obind (get data "crew" (VList [])) (fun crew =>
  obind (ConversationContext.iterate crew) (fun members =>
  obind (directors_of members) (fun directors =>
    Ret (VDict [("cast", cast); ("director", VList directors)])))))).

(** [get_movie_credits]: [response] is the decoded body, or the error of
    the request ([raise_for_status]). *)
Definition get_movie_credits (response : outcome pyval) : outcome pyval :=
  obind response credits_of.

End TMDbClient.

(* ===================================================================== *)
(** ** tmdb_tools.py: GetMovieDetailsTool                                *)
(* ===================================================================== *)

Module MovieDetails.

Section Tool.

(** [os.getenv("TMDB_API_KEY", "")] at the call, the module constant of
    themoviedb.py, the lookup by name and the client's
    [get_movie_details]. *)
Variable env_key : string.
Variable TMDB_API_KEY : string.
Variable search_movie_id : string -> option Z.
Variable get_movie_details : Z -> outcome pyval.

(** [GetMovieDetailsTool._run]. The handler formats [movie_id] into its
    log line: when the client could not be built the variable is not
    bound yet and the handler itself raises. *)
Definition GetMovieDetailsTool_run (movie_name : string) : outcome pyval :=
  let error_text (movie_id : Z) :=
    VStr ("Error getting details for movie ID " ++ str_int movie_id)%string in
  match TMDbClient.__init__ (Some env_key) TMDB_API_KEY with
  | Raise _ => Raise UnboundLocalError
  | Ret _ =>
      match TmdbTools.resolved (search_movie_id movie_name) with
      | None =>
          Ret (VStr ("Movie '" ++ movie_name ++ "' not found. Cannot get details.")%string)
      | Some movie_id =>
          match get_movie_details movie_id with
          | Raise _ => Ret (error_text movie_id)
          | Ret response =>
              if truthy response then Ret response else Ret (error_text movie_id)
          end
      end
  end.

End Tool.

End MovieDetails.

(* ===================================================================== *)
(** ** agent.py and main.py: the registry of contexts and the endpoint   *)
(* ===================================================================== *)

Module Agent.

(** [_contexts]: the dict from a user id to that user's context. The
    contexts are shared objects: what a method does to a context obtained
    from the registry is done to the registry's entry. *)
Definition registry : Type := list (string * ConversationContext.t).

Fixpoint lookup (user_id : string) (contexts : registry)
  : option ConversationContext.t :=
  match contexts with
  | [] => None
  | (k, c) :: rest => if String.eqb k user_id then Some c else lookup user_id rest
  end.

(** The entry of [user_id] after a method has run on its context. *)
Fixpoint update (user_id : string) (c : ConversationContext.t) (contexts : registry)
  : registry :=
  match contexts with
  | [] => [(user_id, c)]
  | (k, old) :: rest =>
      if String.eqb k user_id then (k, c) :: rest
      else (k, old) :: update user_id c rest
  end.

(** [get_context(user_id)] *)
Definition get_context (user_id : string) (contexts : registry)
  : ConversationContext.t * registry :=
  match lookup user_id contexts with
  | Some c => (c, contexts)
  | None =>
      let c := ConversationContext.__init__ None in
      (c, update user_id c contexts)
  end.

Section Endpoint.

Variable py_repr : pyval -> string.
Variable search_movies : string -> Z -> outcome pyval.
Variable start_model : outcome unit.
Variable agent_invoke : string -> outcome pyval.

(** The handler of [POST /chat] in main.py, on a request with the fields
    [user_id] and [message]. *)
Definition chat (user_id message : string) (contexts : registry)
  : outcome pyval * registry :=
  let (context, contexts1) := get_context user_id contexts in
  let (reply, context') :=
    ChatService.generate_reply py_repr search_movies start_model agent_invoke
      (VStr message) false context in
  (obind reply (fun r => Ret (VDict [("reply", r)])),
   update user_id context' contexts1).

End Endpoint.

End Agent.

(* ===================================================================== *)
(** ** ingestion_service.py                                              *)
(* ===================================================================== *)

Module Ingestion.
Import TMDbClient.

Section Text.

Variable py_repr : pyval -> string.

Local Abbreviation py_str := (ConversationContext.py_str py_repr).

(** [build_text_representation(movie)]: the six fields are read in the
    order of the f-string. *)
Definition build_text_representation (movie : pyval) : outcome string :=
  obind (subscript movie "title") (fun title =>
  obind (subscript movie "genres") (fun genres =>
  obind (subscript movie "director") (fun director =>
  obind (subscript movie "cast") (fun cast =>
  obind (subscript movie "year") (fun year =>
  obind (subscript movie "overview") (fun overview =>
    Ret ("Title: " ++ py_str title ++ ". "
         ++ "Genres: " ++ py_str genres ++ ". "
         ++ "Director: " ++ py_str director ++ ". "
         ++ "Main cast: " ++ py_str cast ++ ". "
         ++ "Year: " ++ py_str year ++ ". "
         ++ "Overview: " ++ py_str overview)%string)))))).

(** The metadata dict built for one movie in [ingest_movies]. *)
Definition metadata_of (m : pyval) : outcome pyval :=
  obind (subscript m "title") (fun title =>
  obind (subscript m "overview") (fun overview =>
  obind (subscript m "genres") (fun genres =>
  obind (subscript m "director") (fun director =>
  obind (subscript m "cast") (fun cast =>
  obind (subscript m "year") (fun year =>
  obind (subscript m "rating") (fun rating =>
    Ret (VDict [("title", title); ("overview", overview); ("genres", genres);
                ("director", director); ("cast", cast); ("year", year);
                ("rating", rating)])))))))).

Section Ingest.

(** The vector store: [connect] opens the client and the collection,
    [collection_add id text metadata] is the collection's [add] for one
    document; it returns or raises, and leaves a store behind. *)
Variable Store : Type.
Variable connect : outcome unit.
Variable collection_add : pyval -> string -> pyval -> Store -> outcome unit * Store.

(** The body of the loop of [ingest_movies]. The [try] covers the read of
    [m["id"]] and the call of [add]; its handler logs [m['title']] and
    [m['id']]. *)
Definition ingest_one (m : pyval) (store : Store) : outcome unit * Store :=
  match build_text_representation m with
  | Raise e => (Raise e, store)
  | Ret text =>
      match metadata_of m with
      | Raise e => (Raise e, store)
      | Ret metadata =>
          let attempt :=
            match subscript m "id" with
            | Raise e => (Raise e, store)
            | Ret id => collection_add id text metadata store
            end in
          match attempt with
          | (Ret _, store') => (Ret tt, store')
          | (Raise _, store') =>
              match obind (subscript m "title") (fun _ => subscript m "id") with
              | Ret _ => (Ret tt, store')
              | Raise e => (Raise e, store')
              end
          end
      end
  end.

Fixpoint ingest_all (movies : list pyval) (store : Store) : outcome unit * Store :=
  match movies with
  | [] => (Ret tt, store)
  | m :: rest =>
      match ingest_one m store with
      | (Ret _, store') => ingest_all rest store'
      | (Raise e, store') => (Raise e, store')
      end
  end.

(** [ingest_movies(movies)] *)
Definition ingest_movies (movies : list pyval) (store : Store)
  : outcome unit * Store :=
  match connect with
  | Raise e => (Raise e, store)
  | Ret _ => ingest_all movies store
  end.

End Ingest.

Section Fetch.

(** The module constant of themoviedb.py and the three requests of the
    client that [fetch_movies_from_tmdb] makes. *)
Variable TMDB_API_KEY : string.
Variable get_top_rated : Z -> outcome pyval.
Variable get_movie_details : pyval -> outcome pyval.
Variable get_movie_credits : pyval -> outcome pyval.

(** [[x["name"] for x in items]] *)
Fixpoint names_of (items : list pyval) : outcome (list pyval) :=
  match items with
  | [] => Ret []
  | x :: rest =>
      obind (subscript x "name") (fun name =>
        obind (names_of rest) (fun names => Ret (name :: names)))
  end.

(** [[x["name"] for x in container.get(key, [])]] *)
Definition names_in (container : pyval) (key : string) : outcome (list pyval) :=
  obind (get container key (VList [])) (fun items =>
    obind (ConversationContext.iterate items) names_of).

(** The dict appended for one movie. *)
Definition movie_record (movie_id details credits : pyval) : outcome pyval :=
  obind (names_in details "genres") (fun genres =>
  obind (names_in credits "cast") (fun cast =>
  obind (names_in credits "director") (fun directors =>
  obind (get details "title" VNone) (fun title =>
  obind (get details "overview" VNone) (fun overview =>
  obind (ConversationContext.join_values ", " genres) (fun genres_text =>
  obind (ConversationContext.join_values ", " cast) (fun cast_text =>
  obind (ConversationContext.join_values ", " directors) (fun director_text =>
  obind (get details "release_date" (VStr "")) (fun release_date =>
  obind (slice_to 4 release_date) (fun year =>
  obind (get details "vote_average" VNone) (fun rating =>
    Ret (VDict [("id", VStr (py_str movie_id)); ("title", title);
                ("overview", overview); ("genres", VStr genres_text);
                ("cast", VStr cast_text); ("director", VStr director_text);
                ("year", year); ("rating", rating)])))))))))))).

(** The [for] loop over one page; it ends early once [num_movies] movies
    are collected. A movie whose details or credits cannot be fetched is
    skipped. *)
Fixpoint page_loop (num_movies : Z) (top_rated : list pyval) (movies : list pyval)
  : outcome (list pyval) :=
  match top_rated with
  | [] => Ret movies
  | m :: rest =>
      obind (subscript m "id") (fun movie_id =>
        match get_movie_details movie_id with
        | Raise _ => page_loop num_movies rest movies
        | Ret details =>
            match get_movie_credits movie_id with
            | Raise _ => page_loop num_movies rest movies
            | Ret credits =>
                obind (movie_record movie_id details credits) (fun record =>
                  let movies' := movies ++ [record] in
                  if (Z.of_nat (List.length movies') >=? num_movies)%Z
                  then Ret movies'
                  else page_loop num_movies rest movies')
            end
        end)
  end.

(** The [while] loop, with [fuel] bounding the number of pages requested:
    [None] when the fuel runs out before the loop ends. *)
Fixpoint fetch_pages (fuel : nat) (num_movies page : Z) (movies : list pyval)
  : option (outcome (list pyval)) :=
  if (Z.of_nat (List.length movies) <? num_movies)%Z then
    match fuel with
    | O => None
    | S fuel' =>
        match get_top_rated page with
        | Raise _ => Some (Ret movies)
        | Ret top_rated =>
            match ConversationContext.iterate top_rated with
            | Raise e => Some (Raise e)
            | Ret page_movies =>
                match page_loop num_movies page_movies movies with
                | Raise e => Some (Raise e)
                | Ret movies' => fetch_pages fuel' num_movies (page + 1) movies'
                end
            end
        end
    end
  else Some (Ret movies).

(** A movie of a page for which every step of the loop body succeeds. *)
Definition usable (m : pyval) : Prop :=
  exists movie_id details credits record,
    subscript m "id" = Ret movie_id
    /\ get_movie_details movie_id = Ret details
    /\ get_movie_credits movie_id = Ret credits
    /\ movie_record movie_id details credits = Ret record.

(** [fetch_movies_from_tmdb(tmdb_api_key, num_movies)] *)
Definition fetch_movies_from_tmdb (fuel : nat) (tmdb_api_key : string)
    (num_movies : Z) : option (outcome (list pyval)) :=
  match TMDbClient.__init__ (Some tmdb_api_key) TMDB_API_KEY with
  | Raise e => Some (Raise e)
  | Ret _ => fetch_pages fuel num_movies 1 []
  end.

End Fetch.

End Text.

End Ingestion.

(* ===================================================================== *)
(** ** More concrete inputs                                              *)
(* ===================================================================== *)

Module MoreSamples.
Import ConversationContext TmdbTools Samples.

Definition mixed_items : list (string * pyval) :=
  [("user", VStr "hi"); ("moderator", VStr "stop"); ("assistant", VStr "hello")].

(** A context of capacity two that is full. *)
Definition full_of_two : t :=
  {| max_history := 2; messages := turn "q1" "a1"; movies := []; chromadb_results := [] |}.

Definition negative_capacity : t :=
  {| max_history := -1; messages := []; movies := []; chromadb_results := [] |}.

Definition stored (ids : list Z) : World :=
  {| favourite_file := Stored ids; write_error := None |}.

Definition read_only_disk : World :=
  {| favourite_file := Stored [603%Z]; write_error := Some "Permission denied" |}.

(** A decoded credits body with seven cast members and a crew of three. *)
Definition person (name job : string) : pyval :=
  VDict [("name", VStr name); ("job", VStr job)].

Definition credits_body : pyval :=
  VDict [("cast", VList (map (fun n => person n "Actor")
                           ["a"; "b"; "c"; "d"; "e"; "f"; "g"]));
         ("crew", VList [person "x" "Producer"; person "y" "Director";
                         person "z" "Editor"])].

(** A registry with one user. *)
Definition one_user : Agent.registry := [("ann", two_messages)].

(** Movies as [fetch_movies_from_tmdb] builds them, one of them without a
    rating. *)
Definition movie (id title : string) : pyval :=
  VDict [("id", VStr id); ("title", VStr title); ("overview", VStr "");
         ("genres", VStr "Drama"); ("cast", VStr ""); ("director", VStr "");
         ("year", VStr "1995"); ("rating", VInt 8)].

Definition unrated (id title : string) : pyval :=
  VDict [("id", VStr id); ("title", VStr title); ("overview", VStr "");
         ("genres", VStr "Drama"); ("cast", VStr ""); ("director", VStr "");
         ("year", VStr "1995")].

(** A collection that records the ids it is given and refuses the id
    [13]. *)
Definition recording_add (id : pyval) (text : string) (metadata : pyval)
    (store : list pyval) : outcome unit * list pyval :=
  match id with
  | VStr "13" => (Raise PyException, store)
  | _ => (Ret tt, store ++ [id])
  end.

(** A catalogue of two pages of two movies each; the details of the movie
    2 cannot be fetched, and there is no third page. *)
Definition listed (id : Z) : pyval := VDict [("id", VInt id)].

Definition two_pages (page : Z) : outcome pyval :=
  if (page =? 1)%Z then Ret (VList [listed 1; listed 2])
  else if (page =? 2)%Z then Ret (VList [listed 3; listed 4])
  else Raise PyException.

Definition details_but_two (movie_id : pyval) : outcome pyval :=
  match movie_id with
  | VInt 2 => Raise PyException
  | _ => Ret (VDict [("title", VStr "T"); ("release_date", VStr "1995-12-15");
                     ("genres", VList [VDict [("name", VStr "Crime")]])])
  end.

Definition no_credits (movie_id : pyval) : outcome pyval :=
  Ret (VDict [("cast", VList []); ("director", VList [])]).

Definition empty_pages (page : Z) : outcome pyval := Ret (VList []).

(** A catalogue whose only page lists the movies 1 and 3. *)
Definition one_page (page : Z) : outcome pyval :=
  if (page =? 1)%Z then Ret (VList [listed 1; listed 3]) else Raise PyException.

(** Entity maps with a [favorite_movies] field that is a text, and one
    that is [None]. *)
Definition text_list_entry : t :=
  {| max_history := 10; messages := [];
     movies := [("27205", [("favorite_movies", VStr "Heat")])];
     chromadb_results := [] |}.

Definition none_list_entry : t :=
  {| max_history := 10; messages := [];
     movies := [("27205", [("title", VStr "Inception"); ("favorite_movies", VNone)])];
     chromadb_results := [] |}.

End MoreSamples.

(* ===================================================================== *)
(** ** Lists, slices and strings                                         *)
(* ===================================================================== *)

Section ListFacts.
Context {A : Type}.
Implicit Types (l r : list A) (n : nat).

Lemma lastn_all n l : (List.length l <= n)%nat -> lastn n l = l.
Proof.
  intros Hlen. unfold lastn.
  replace (List.length l - n)%nat with 0%nat by lia. reflexivity.
Qed.

Lemma lastn_length n l : List.length (lastn n l) = Nat.min n (List.length l).
Proof. unfold lastn. rewrite length_skipn. lia. Qed.

Lemma lastn_app_short n l r :
  (List.length r <= n)%nat ->
  lastn n (l ++ r) = lastn (n - List.length r) l ++ r.
Proof.
  intros Hr. unfold lastn. rewrite skipn_app, length_app.
  replace (List.length l + List.length r - n - List.length l)%nat with 0%nat by lia.
  simpl. f_equal. f_equal. lia.
Qed.

(** Trimming to the last [n] before appending does not change what the
    last [n] are afterwards. *)
Lemma lastn_lastn_app n l r : lastn n (lastn n l ++ r) = lastn n (l ++ r).
Proof.
  destruct (Nat.le_gt_cases (List.length l) n) as [Hle | Hgt].
  - now rewrite (lastn_all n l Hle).
  - unfold lastn at 1 3. rewrite !length_app, lastn_length.
    replace (Nat.min n (List.length l)) with n by lia.
    replace (n + List.length r - n)%nat with (List.length r) by lia.
    replace (List.length l + List.length r - n)%nat
      with (List.length r + (List.length l - n))%nat by lia.
    rewrite <- skipn_skipn. f_equal.
    rewrite skipn_app.
    replace (List.length l - n - List.length l)%nat with 0%nat by lia.
    reflexivity.
Qed.

(** [l[-k:]] is the last [k] elements when [k] is positive ... *)
Lemma slice_from_neg (k : Z) l :
  (1 <= k)%Z -> slice_from (- k) l = lastn (Z.to_nat k) l.
Proof.
  intros Hk. unfold slice_from, lastn.
  destruct (Z.ltb_spec (- k) 0) as [_ | Hge]; [| lia].
  f_equal. lia.
Qed.

(** ... and the whole list when [k] is zero, since [-0] is [0]. *)
Lemma slice_from_zero l : slice_from (- 0) l = l.
Proof.
  unfold slice_from. simpl. rewrite Z.min_l by lia. reflexivity.
Qed.

(** For a negative [k] the slice [l[-k:]] drops the first [-k] elements. *)
Lemma slice_from_nonpos (k : Z) l :
  (k <= 0)%Z -> slice_from (- k) l = skipn (Z.to_nat (- k)) l.
Proof.
  intros Hk. unfold slice_from.
  destruct (Z.ltb_spec (- k) 0) as [Hlt | _]; [lia |].
  destruct (Z.le_gt_cases (- k) (Z.of_nat (List.length l))) as [Hle | Hgt].
  - now rewrite Z.min_l by lia.
  - rewrite Z.min_r by lia. rewrite Nat2Z.id.
    rewrite !skipn_all2; [reflexivity | lia | lia].
Qed.

End ListFacts.

Lemma join_nonempty (sep p : string) (rest : list string) :
  p <> "" -> join sep (p :: rest) <> "".
Proof.
  intros Hp. destruct p as [| c p']; [congruence |].
  destruct rest; simpl; congruence.
Qed.

(* ===================================================================== *)
(** ** The history buffer                                                *)
(* ===================================================================== *)

Section History.
Import ConversationContext Runs.
Implicit Types (self : t) (role : string) (content : pyval).

Lemma add_message_allowed self role content :
  role_allowed role = true ->
  fst (_add_message role content self) = Ret tt.
Proof.
  intros Hrole. unfold _add_message. rewrite Hrole. reflexivity.
Qed.

Lemma add_message_refused self role content :
  role_allowed role = false ->
  _add_message role content self = (Raise ValueError, self).
Proof.
  intros Hrole. unfold _add_message. rewrite Hrole. reflexivity.
Qed.

(** Only the message list is assigned to. *)
Lemma add_message_frame self role content :
  let self' := snd (_add_message role content self) in
  max_history self' = max_history self
  /\ movies self' = movies self
  /\ chromadb_results self' = chromadb_results self.
Proof.
  unfold _add_message.
  destruct (role_allowed role); simpl; [| auto].
  destruct (_ >? _)%Z; simpl; auto.
Qed.

(** With a capacity of at least one, an append keeps the last
    [max_history] messages of the extended list. *)
Lemma add_message_lastn self role content :
  role_allowed role = true ->
  (1 <= max_history self)%Z ->
  messages (snd (_add_message role content self))
  = lastn (Z.to_nat (max_history self)) (messages self ++ [mkMessage role content]).
Proof.
  intros Hrole Hcap. unfold _add_message. rewrite Hrole. simpl.
  destruct (Z.gtb_spec (Z.of_nat (List.length (messages self ++ [mkMessage role content])))
              (max_history self)) as [Hgt | Hle]; simpl.
  - now apply slice_from_neg.
  - symmetry. apply lastn_all. lia.
Qed.

(** With a capacity that is not negative, the message just appended is
    the last one of the history. *)
Lemma add_message_is_last self role content :
  role_allowed role = true ->
  (0 <= max_history self)%Z ->
  exists front,
    messages (snd (_add_message role content self))
    = front ++ [mkMessage role content].
Proof.
  intros Hrole Hcap.
  destruct (Z.eq_dec (max_history self) 0) as [Hzero | Hpos].
  - unfold _add_message. rewrite Hrole. simpl. rewrite Hzero.
    destruct (_ >? _)%Z; simpl.
    + exists (messages self). apply (slice_from_zero (messages self ++ _)).
    + now exists (messages self).
  - rewrite add_message_lastn by (auto; lia).
    rewrite lastn_app_short by (simpl; lia).
    eexists. reflexivity.
Qed.

(** With a capacity of zero the trimming slice is [messages[-0:]], the
    whole list: nothing is evicted. *)
Lemma add_message_zero_capacity self role content :
  role_allowed role = true ->
  max_history self = 0%Z ->
  messages (snd (_add_message role content self))
  = messages self ++ [mkMessage role content].
Proof.
  intros Hrole Hzero. unfold _add_message. rewrite Hrole. simpl.
  rewrite Hzero. destruct (_ >? _)%Z; simpl; [| reflexivity].
  apply (slice_from_zero (messages self ++ _)).
Qed.

Lemma after_adds_app self items more :
  after_adds self (items ++ more) = after_adds (after_adds self items) more.
Proof. unfold after_adds. apply fold_left_app. Qed.

Lemma after_adds_capacity self items :
  max_history (after_adds self items) = max_history self.
Proof.
  revert self. induction items as [| item items IH]; intros self; simpl.
  - reflexivity.
  - rewrite IH. unfold after_add. apply add_message_frame.
Qed.

(** Bounded history, for a capacity of at least one: after any
    non-empty sequence of valid appends the history is the last
    [max_history] messages of everything appended so far. *)
Lemma after_adds_lastn self items :
  forallb allowed items = true ->
  items <> [] ->
  (1 <= max_history self)%Z ->
  messages (after_adds self items)
  = lastn (Z.to_nat (max_history self)) (messages self ++ map as_message items).
Proof.
  intros Hall Hne Hcap. revert Hall Hne.
  induction items as [| item items IH] using rev_ind; intros Hall Hne.
  - congruence.
  - rewrite forallb_app in Hall. apply andb_prop in Hall as [Hitems Hitem].
    simpl in Hitem. rewrite andb_true_r in Hitem.
    rewrite after_adds_app. simpl. unfold after_add at 1.
    rewrite add_message_lastn
      by (auto; rewrite after_adds_capacity; exact Hcap).
    rewrite after_adds_capacity, map_app, app_assoc. simpl.
    destruct items as [| first items'].
    + simpl. rewrite app_nil_r. reflexivity.
    + rewrite IH by (auto; discriminate).
      apply lastn_lastn_app.
Qed.

Lemma after_adds_bounded self items :
  forallb allowed items = true ->
  items <> [] ->
  (1 <= max_history self)%Z ->
  (Z.of_nat (List.length (messages (after_adds self items))) <= max_history self)%Z.
Proof.
  intros Hall Hne Hcap. rewrite after_adds_lastn by assumption.
  rewrite lastn_length. lia.
Qed.

(** [get_recent] reads. *)
Lemma get_recent_read_only n : read_only (get_recent n).
Proof.
  intros self. unfold get_recent.
  destruct n as [n |]; [destruct (_ >=? _)%Z |]; reflexivity.
Qed.

Lemma get_recent_returns n : returns (get_recent n).
Proof.
  intros self. unfold get_recent.
  destruct n as [n |]; [destruct (_ >=? _)%Z |]; eexists; reflexivity.
Qed.

Lemma get_recent_all self n :
  (forall k, n = Some k -> (Z.of_nat (List.length (messages self)) <= k)%Z) ->
  fst (get_recent n self) = Ret (messages self).
Proof.
  intros Hn. unfold get_recent. destruct n as [k |]; [| reflexivity].
  specialize (Hn k eq_refl).
  destruct (Z.geb_spec k (Z.of_nat (List.length (messages self)))); [reflexivity | lia].
Qed.

(** [get_recent(0)] takes the slice [messages[-0:]], the whole list. *)
Lemma get_recent_zero self :
  fst (get_recent (Some 0%Z) self) = Ret (messages self).
Proof.
  unfold get_recent. destruct (_ >=? _)%Z; [reflexivity |].
  simpl. f_equal. apply (slice_from_zero (messages self)).
Qed.

Lemma get_recent_lastn self k :
  (1 <= k)%Z ->
  fst (get_recent (Some k) self) = Ret (lastn (Z.to_nat k) (messages self)).
Proof.
  intros Hk. unfold get_recent.
  destruct (Z.geb_spec k (Z.of_nat (List.length (messages self)))) as [Hge | Hlt]; simpl.
  - rewrite lastn_all by lia. reflexivity.
  - now rewrite slice_from_neg.
Qed.

End History.

(* ===================================================================== *)
(** ** The reply pipeline                                                *)
(* ===================================================================== *)

Section PipelineFacts.
Import ConversationContext ChatService Runs.

Variable py_repr : pyval -> string.
Variable search_movies : string -> Z -> outcome pyval.
Variable start_model : outcome unit.
Variable agent_invoke : string -> outcome pyval.

Local Abbreviation generate_reply :=
  (generate_reply py_repr search_movies start_model agent_invoke).
Local Abbreviation final_reply :=
  (final_reply py_repr search_movies start_model agent_invoke).
Local Abbreviation _chat_with_agent :=
  (_chat_with_agent py_repr start_model agent_invoke).

Lemma bind_run {A B} (m : M A) (k : A -> M B) self a self' :
  m self = (Ret a, self') -> bind m k self = k a self'.
Proof. intros Hm. unfold bind. rewrite Hm. reflexivity. Qed.

Lemma add_user_message_run content self :
  add_user_message content self = (Ret tt, snd (add_user_message content self)).
Proof.
  unfold add_user_message, _add_message. simpl. reflexivity.
Qed.

Lemma add_assistant_message_run content self :
  add_assistant_message content self
  = (Ret tt, snd (add_assistant_message content self)).
Proof.
  unfold add_assistant_message, _add_message. simpl. reflexivity.
Qed.

Lemma build_context_history_run self :
  build_context_history py_repr None self = (Ret (transcript py_repr self), self).
Proof. reflexivity. Qed.

(** One turn: the user message is appended, the reply is computed
    without touching the context, the reply is appended and returned. *)
Lemma generate_reply_run user_message text chromadb_test self :
  valid_user_message user_message = Some text ->
  let self1 := snd (add_user_message user_message self) in
  let reply := final_reply text chromadb_test self1 in
  generate_reply user_message chromadb_test self
  = (Ret reply, snd (add_assistant_message reply self1)).
Proof.
  intros Hvalid self1 reply. unfold ChatService.generate_reply.
  rewrite Hvalid.
  rewrite (bind_run _ _ _ _ _ (add_user_message_run user_message self)).
  fold self1.
  match goal with
  | |- bind ?stage _ _ = _ =>
      assert (Hstage : stage self1 = (Ret reply, self1))
  end.
  { subst reply. unfold Runs.final_reply.
    destruct chromadb_test; unfold try_except, lift, bind, ret.
    - destruct (search_movies text 5); reflexivity.
    - destruct (search_movies text 5) as [found | e]; simpl; [| reflexivity].
      unfold _build_prompt_vars, bind.
      rewrite build_context_history_run.
      unfold get_favorite_movies.
      destruct (favorite_movies_of (map snd (movies self1))) as [favorites | e];
        [| reflexivity].
      unfold ret.
      destruct (ChatService._chat_with_agent _ _ _ _); reflexivity. }
  rewrite (bind_run _ _ _ _ _ Hstage).
  rewrite (bind_run _ _ _ _ _ (add_assistant_message_run reply self1)).
  reflexivity.
Qed.


Lemma valid_text text :
  strip text <> "" -> valid_user_message (VStr text) = Some text.
Proof.
  intros Hne. unfold valid_user_message, truthy.
  destruct (String.eqb_spec (strip text) ""); [contradiction | reflexivity].
Qed.

Lemma invalid_message user_message :
  (forall text, user_message = VStr text -> strip text = "") ->
  valid_user_message user_message = None.
Proof.
  intros Hbad. destruct user_message; try reflexivity.
  unfold valid_user_message, truthy. rewrite (Hbad s eq_refl). reflexivity.
Qed.

Lemma chat_with_agent_raises prompt_vars :
  (exists e, start_model = Raise e)
  \/ (forall prompt, exists e, agent_invoke prompt = Raise e) ->
  exists e, _chat_with_agent prompt_vars = Raise e.
Proof.
  intros Hagent. unfold ChatService._chat_with_agent.
  destruct Hagent as [[e Hstart] | Hinvoke].
  - rewrite Hstart. simpl. destruct (is_ValueError e); eexists; reflexivity.
  - destruct start_model as [u | e]; simpl.
    + destruct (Hinvoke (chat_prompt_format py_repr prompt_vars)) as [e He].
      rewrite He. simpl. destruct (is_ValueError e); eexists; reflexivity.
    + destruct (is_ValueError e); eexists; reflexivity.
Qed.

(** When the search raises, the second [try] reads [llama_reply] before
    any assignment to it: the agent is not called, whatever it would
    have answered. *)
Lemma search_failure_gives_fallback text self :
  (exists e, search_movies text 5 = Raise e) ->
  final_reply text false self = VStr unable_to_reply.
Proof.
  intros [e Hsearch]. unfold Runs.final_reply. rewrite Hsearch. reflexivity.
Qed.


Lemma generate_reply_after_search_failure self text :
  strip text <> "" ->
  (exists e, search_movies text 5 = Raise e) ->
  fst (generate_reply (VStr text) false self) = Ret (VStr unable_to_reply).
Proof.
  intros Htext Hsearch.
  pose proof (generate_reply_run (VStr text) text false self (valid_text text Htext))
    as Hrun.
  cbv zeta in Hrun. rewrite Hrun.
  rewrite (search_failure_gives_fallback text _ Hsearch). reflexivity.
Qed.

(** C1 (as amended). A call with a message that is not empty after
    trimming returns a reply and performs exactly two appends, the user
    message first and the reply as an assistant message second, whatever
    the retrieval and agent stages do. Each append trims the history to
    its capacity: for a capacity of at least one the history afterwards
    is the last [max_history] messages of the old history followed by
    the two new messages, and its length has grown by exactly two when
    the two messages fit under the capacity. *)
Theorem generate_reply_two_bounded_appends self text chromadb_test :
  strip text <> "" ->
  exists reply self',
    generate_reply (VStr text) chromadb_test self = (Ret reply, self')
    /\ self' = snd (_add_message "assistant" reply
                      (snd (_add_message "user" (VStr text) self)))
    /\ ((1 <= max_history self)%Z ->
        messages self'
        = lastn (Z.to_nat (max_history self))
            (messages self
             ++ [mkMessage "user" (VStr text); mkMessage "assistant" reply]))
    /\ ((Z.of_nat (List.length (messages self)) + 2 <= max_history self)%Z ->
        messages self'
        = messages self
          ++ [mkMessage "user" (VStr text); mkMessage "assistant" reply]
        /\ List.length (messages self') = (List.length (messages self) + 2)%nat).
Proof.
  intros Htext.
  pose proof (generate_reply_run (VStr text) text chromadb_test self
                (valid_text text Htext)) as Hrun.
  cbv zeta in Hrun.
  set (self1 := snd (add_user_message (VStr text) self)) in *.
  set (reply := final_reply text chromadb_test self1) in *.
  assert (Hlast : (1 <= max_history self)%Z ->
            messages (snd (add_assistant_message reply self1))
            = lastn (Z.to_nat (max_history self))
                (messages self
                 ++ [mkMessage "user" (VStr text); mkMessage "assistant" reply])).
  { intros Hcap. unfold add_assistant_message.
    assert (Hkeep : max_history self1 = max_history self)
      by (subst self1; apply add_message_frame).
    rewrite add_message_lastn by (auto; lia).
    subst self1. unfold add_user_message in *.
    rewrite Hkeep, add_message_lastn by auto.
    rewrite lastn_lastn_app, <- app_assoc. reflexivity. }
  exists reply, (snd (add_assistant_message reply self1)).
  repeat split.
  - exact Hrun.
  - exact Hlast.
  - rewrite Hlast by lia. apply lastn_all.
    rewrite length_app. simpl. lia.
  - rewrite Hlast by lia. rewrite lastn_all.
    + rewrite length_app. reflexivity.
    + rewrite length_app. simpl. lia.
Qed.

(** C3 (as amended). When the retrieval returns and the agent stage of
    this turn raises, because the agent cannot be initialised, because its
    invocation on the prompt of this turn fails, or for any other error of
    [_chat_with_agent] on the prompt variables of this turn, the call
    returns the fixed text "Sorry, I am unable to generate a reply at the
    moment. Please try again later.", for every context; and for every
    context whose capacity is not negative that text is the content of the
    assistant message that ends the history. *)
Theorem agent_failure_gives_fallback self text found :
  strip text <> "" ->
  search_movies text 5 = Ret found ->
  (forall prompt_vars,
     fst (ChatService._build_prompt_vars py_repr text found
            (snd (add_user_message (VStr text) self))) = Ret prompt_vars ->
     (exists e, start_model = Raise e)
     \/ (exists e, agent_invoke (chat_prompt_format py_repr prompt_vars) = Raise e)
     \/ (exists e, _chat_with_agent prompt_vars = Raise e)) ->
  exists self',
    generate_reply (VStr text) false self
    = (Ret (VStr "Sorry, I am unable to generate a reply at the moment. Please try again later."),
       self')
    /\ ((0 <= max_history self)%Z ->
        exists front,
          messages self'
          = front
            ++ [mkMessage "assistant"
                  (VStr "Sorry, I am unable to generate a reply at the moment. Please try again later.")]).
Proof.
  intros Htext Hsearch Hagent.
  pose proof (generate_reply_run (VStr text) text false self
                (valid_text text Htext)) as Hrun.
  cbv zeta in Hrun.
  set (self1 := snd (add_user_message (VStr text) self)) in *.
  assert (Hreply : final_reply text false self1 = VStr unable_to_reply).
  { unfold Runs.final_reply. rewrite Hsearch.
    destruct (favorite_movies_of (map snd (movies self1))) as [favorites | e]
      eqn:Hfavorites; [| reflexivity].
    set (prompt_vars := mkPromptVars (transcript py_repr self1) favorites found text).
    assert (Hvars : fst (ChatService._build_prompt_vars py_repr text found self1)
                    = Ret prompt_vars).
    { unfold ChatService._build_prompt_vars, bind.
      rewrite build_context_history_run. unfold get_favorite_movies.
      rewrite Hfavorites. reflexivity. }
    assert (Hraise : exists e, _chat_with_agent prompt_vars = Raise e).
    { destruct (Hagent prompt_vars Hvars) as [[e Hstart] | [[e Hinvoke] | Hstage]].
      - unfold ChatService._chat_with_agent. rewrite Hstart. simpl.
        destruct (is_ValueError e); eexists; reflexivity.
      - unfold ChatService._chat_with_agent.
        destruct start_model as [ready | e0]; simpl.
        + rewrite Hinvoke. simpl. destruct (is_ValueError e); eexists; reflexivity.
        + destruct (is_ValueError e0); eexists; reflexivity.
      - exact Hstage. }
    destruct Hraise as [e He]. rewrite He. reflexivity. }
  rewrite Hreply in Hrun.
  exists (snd (add_assistant_message (VStr unable_to_reply) self1)).
  split; [exact Hrun |].
  intros Hcap.
  assert (Hkeep : max_history self1 = max_history self)
    by (subst self1; apply add_message_frame).
  apply (add_message_is_last self1 "assistant" (VStr unable_to_reply) eq_refl).
  lia.
Qed.

(** C5. Malformed input is an error of the caller and changes nothing:
    [generate_reply] on an argument that is not a string, or on a string
    that is empty after trimming, raises [ValueError] and leaves the
    context as it was; [_add_message] with a role other than user,
    assistant and system raises [ValueError] and leaves the context as it
    was. *)
Theorem malformed_input_raises_unchanged self :
  (forall user_message chromadb_test,
      (forall text, user_message = VStr text -> strip text = "") ->
      generate_reply user_message chromadb_test self = (Raise ValueError, self))
  /\ (forall role content,
        role <> "user" -> role <> "assistant" -> role <> "system" ->
        _add_message role content self = (Raise ValueError, self)).
Proof.
  split.
  - intros user_message chromadb_test Hbad.
    unfold ChatService.generate_reply.
    rewrite (invalid_message user_message Hbad). reflexivity.
  - intros role content Huser Hassistant Hsystem.
    apply add_message_refused. unfold role_allowed.
    apply String.eqb_neq in Huser, Hassistant, Hsystem.
    rewrite Huser, Hassistant, Hsystem. reflexivity.
Qed.

(** C10. Whatever the argument and whatever the collaborators do, a call
    of [generate_reply] leaves the entity map [movies] and the retrieval
    log [chromadb_results] of the context as they were (and its capacity
    too): only the message history can differ, and the context after the
    call is either the context before it or the result of the two
    appends, of the user message and of the reply. *)
Theorem generate_reply_frame self user_message chromadb_test :
  let self' := snd (generate_reply user_message chromadb_test self) in
  movies self' = movies self
  /\ chromadb_results self' = chromadb_results self
  /\ max_history self' = max_history self
  /\ (self' = self
      \/ exists reply,
           self' = snd (add_assistant_message reply
                          (snd (add_user_message user_message self)))).
Proof.
  destruct (valid_user_message user_message) as [text |] eqn:Hvalid.
  - pose proof (generate_reply_run user_message text chromadb_test self Hvalid)
      as Hrun.
    cbv zeta in *. rewrite Hrun. clear Hrun.
    unfold add_assistant_message, add_user_message.
    set (self1 := snd (_add_message "user" user_message self)).
    set (reply := final_reply text chromadb_test self1).
    destruct (add_message_frame self "user" user_message) as (Hcap1 & Hmov1 & Hlog1).
    destruct (add_message_frame self1 "assistant" reply) as (Hcap2 & Hmov2 & Hlog2).
    fold self1 in Hcap1, Hmov1, Hlog1.
    change (snd (Ret reply, snd (_add_message "assistant" reply self1)))
      with (snd (_add_message "assistant" reply self1)).
    repeat split; try congruence.
    right. exists reply. reflexivity.
  - unfold ChatService.generate_reply. rewrite Hvalid. simpl. auto 6.
Qed.


(** *** Extraction of the reply *)

Local Abbreviation py_str := (ConversationContext.py_str py_repr).
Local Abbreviation extract_reply := (ChatService.extract_reply py_repr).

Lemma chat_with_agent_extracts prompt_vars response :
  start_model = Ret tt ->
  agent_invoke (chat_prompt_format py_repr prompt_vars) = Ret response ->
  _chat_with_agent prompt_vars = rewrap (extract_reply response).
Proof.
  intros Hstart Hinvoke. unfold ChatService._chat_with_agent.
  rewrite Hstart. simpl. rewrite Hinvoke. reflexivity.
Qed.

Lemma lookup_contains key d v :
  dict_lookup key d = Some v ->
  dict_contains key d = true /\ forall default, dict_get key default d = v.
Proof.
  intros Hlookup. unfold dict_contains, dict_get. rewrite Hlookup. auto.
Qed.

Lemma index_last_snoc front last_message :
  truthy (VList (front ++ [last_message])) = true
  /\ index_last (VList (front ++ [last_message])) = Ret last_message.
Proof.
  unfold truthy, index_last.
  destruct (front ++ [last_message]) as [| first rest] eqn:Hshape.
  - destruct front; discriminate.
  - rewrite <- Hshape, last_last. auto.
Qed.

(** The value bound to [last_msg] for the last message of a non-empty
    list: its content field, or its displayable form without one. *)
Lemma extract_reply_last d front last_message :
  dict_lookup "messages" d = Some (VList (front ++ [last_message])) ->
  extract_reply (VDict d)
  = call_strip
      (match match Spec.content_of last_message with
             | Some v => v
             | None => VStr (py_str last_message)
             end with
       | VNone => VStr (py_str (VDict d))
       | v => v
       end).
Proof.
  intros Hlookup. destruct (lookup_contains _ _ _ Hlookup) as [Hin Hget].
  destruct (index_last_snoc front last_message) as [Htrue Hlast].
  unfold ChatService.extract_reply. rewrite Hin, Hget, Htrue, Hlast. simpl.
  destruct last_message; simpl; try reflexivity.
  - unfold dict_get. destruct (dict_lookup "content" d0) as [[] |]; reflexivity.
  - unfold dict_get. destruct (dict_lookup "content" attrs) as [[] |]; reflexivity.
Qed.

(** C7 (as amended). With an agent that starts and answers [response],
    [_chat_with_agent] returns: the trimmed text for a plain string; for
    a dict whose [messages] entry is a non-empty list, the trimmed
    content of the last message when that content is a string, the
    trimmed string form of the last message when it has no content
    field, the string form of the whole response (trimmed) when its
    content is [None], and it raises when the content is any other
    value; the string form of the whole response (trimmed) for a dict
    whose [messages] entry is empty or otherwise false; and the string
    form of the response for every response that is neither a string nor
    a dict with a [messages] entry. *)
Theorem chat_with_agent_extraction prompt_vars response :
  start_model = Ret tt ->
  agent_invoke (chat_prompt_format py_repr prompt_vars) = Ret response ->
  (forall s, response = VStr s -> _chat_with_agent prompt_vars = Ret (strip s))
  /\ (forall d front last_message,
        response = VDict d ->
        dict_lookup "messages" d = Some (VList (front ++ [last_message])) ->
        match Spec.content_of last_message with
        | Some (VStr c) => _chat_with_agent prompt_vars = Ret (strip c)
        | None => _chat_with_agent prompt_vars = Ret (strip (py_str last_message))
        | Some VNone => _chat_with_agent prompt_vars = Ret (strip (py_str response))
        | Some _ => _chat_with_agent prompt_vars = Raise PyException
        end)
  /\ (forall d v,
        response = VDict d ->
        dict_lookup "messages" d = Some v -> truthy v = false ->
        _chat_with_agent prompt_vars = Ret (strip (py_str response)))
  /\ (Spec.is_text response = false -> Spec.has_messages response = false ->
      _chat_with_agent prompt_vars = Ret (py_str response)).
Proof.
  intros Hstart Hinvoke.
  rewrite (chat_with_agent_extracts prompt_vars response Hstart Hinvoke).
  repeat split.
  - intros s ->. reflexivity.
  - intros d front last_message -> Hlookup.
    rewrite (extract_reply_last d front last_message Hlookup).
    destruct (Spec.content_of last_message) as [[] |]; reflexivity.
  - intros d v -> Hlookup Hfalse.
    destruct (lookup_contains _ _ _ Hlookup) as [Hin Hget].
    unfold ChatService.extract_reply. rewrite Hin, Hget, Hfalse. reflexivity.
  - intros Htext Hmessages. destruct response; try reflexivity.
    + discriminate.
    + simpl in Hmessages. unfold ChatService.extract_reply.
      rewrite Hmessages. reflexivity.
Qed.

End PipelineFacts.

(* ===================================================================== *)
(** ** The favourites summary                                            *)
(* ===================================================================== *)

Section FavoritesSummary.
Import ConversationContext Spec.

Lemma texts_app a b : texts (a ++ b) = texts a ++ texts b.
Proof.
  induction a as [| v a IH]; simpl; [reflexivity |].
  destruct v; simpl; now rewrite ?IH.
Qed.

Lemma as_strs_texts items :
  forallb is_text items = true -> as_strs items = Ret (texts items).
Proof.
  induction items as [| v items IH]; simpl; [reflexivity |].
  intros Hall. apply andb_prop in Hall as [Hv Hitems].
  destruct v; try discriminate. rewrite (IH Hitems). reflexivity.
Qed.

Lemma texts_nil items :
  forallb is_text items = true -> texts items = [] -> items = [].
Proof.
  destruct items as [| v items]; [reflexivity |].
  simpl. intros Hall. apply andb_prop in Hall as [Hv _].
  destruct v; discriminate.
Qed.

(** What the loop over the entries collects when every
    [favorite_movies] field is a list of texts. *)
Lemma extend_all_typed values fav_list :
  forallb typed_list values = true ->
  exists items,
    extend_all fav_list values = Ret (fav_list ++ items)
    /\ forallb is_text items = true
    /\ texts items = flat_map listed_of values.
Proof.
  revert fav_list. induction values as [| meta values IH]; intros fav_list Hall.
  - exists []. simpl. rewrite app_nil_r. auto.
  - simpl in Hall. apply andb_prop in Hall as [Hmeta Hvalues].
    simpl. unfold typed_list in Hmeta. unfold dict_get, listed_of.
    destruct (dict_lookup "favorite_movies" meta) as [v |].
    + destruct v; try discriminate. simpl.
      destruct (IH (fav_list ++ l) Hvalues) as (items & Hrun & Htext & Hsame).
      exists (l ++ items). rewrite Hrun, app_assoc, forallb_app, texts_app.
      rewrite Hmeta, Htext, Hsame. auto.
    + simpl. destruct (IH (fav_list ++ []) Hvalues) as (items & Hrun & Htext & Hsame).
      exists items. rewrite Hrun, app_nil_r. auto.
Qed.

(** The titles that tier 1 joins. *)
Lemma flagged_titles_typed flagged :
  forallb typed_title flagged = true ->
  as_strs (map (dict_get "title" (VStr ""))
             (filter (fun m => truthy (dict_get "title" VNone m)) flagged))
  = Ret (present (map title_of flagged)).
Proof.
  induction flagged as [| meta flagged IH]; [reflexivity |].
  intros Hall. cbn [forallb] in Hall. apply andb_prop in Hall as [Hmeta Hflagged].
  specialize (IH Hflagged). cbn [filter map present].
  unfold typed_title in Hmeta.
  destruct (dict_lookup "title" meta) as [v |] eqn:Htitle.
  - destruct v; try discriminate.
    assert (Hprobe : dict_get "title" VNone meta = VStr s)
      by (unfold dict_get; now rewrite Htitle).
    assert (Hget : dict_get "title" (VStr "") meta = VStr s)
      by (unfold dict_get; now rewrite Htitle).
    assert (Hof : title_of meta = if String.eqb s "" then None else Some s)
      by (unfold title_of; now rewrite Htitle).
    rewrite Hprobe, Hof. cbn [truthy].
    destruct (String.eqb s ""); cbn [negb map present as_strs].
    + exact IH.
    + rewrite Hget. cbn [as_strs]. rewrite IH. reflexivity.
  - assert (Hprobe : dict_get "title" VNone meta = VNone)
      by (unfold dict_get; now rewrite Htitle).
    assert (Hof : title_of meta = None)
      by (unfold title_of; now rewrite Htitle).
    rewrite Hprobe, Hof. exact IH.
Qed.

Lemma present_titles_nonempty flagged title :
  In title (present (map title_of flagged)) -> title <> "".
Proof.
  induction flagged as [| meta flagged IH]; simpl; [contradiction |].
  unfold title_of at 1.
  destruct (dict_lookup "title" meta) as [[] |]; auto.
  destruct (String.eqb_spec s ""); auto.
  intros [<- | Hin]; auto.
Qed.

(** C6 (as amended). On entries whose titles and [favorite_movies]
    fields have the types of the data model, [get_favorite_movies]
    returns, without changing the context: (1) when some entry is
    flagged [favorite == True], the comma-joined non-empty titles of the
    flagged entries only, or "No favorite movies stored." when none of
    them has a title, and no [favorite_movies] field is read; (2)
    otherwise, when the concatenation of the [favorite_movies] lists of
    all entries holds at least one title, its comma-join; (3) otherwise
    "No favorite movies stored.". *)
Theorem favorites_three_tiers self :
  well_typed (map snd (movies self)) = true ->
  get_favorite_movies self
  = (Ret (favorites_summary (map snd (movies self))), self).
Proof.
  unfold get_favorite_movies, favorite_movies_of, well_typed, favorites_summary.
  set (entries := map snd (movies self)).
  destruct (filter is_favorite entries) as [| first others] eqn:Hflagged.
  - intros Htyped.
    destruct (extend_all_typed entries [] Htyped) as (items & Hrun & Htext & Hsame).
    rewrite Hrun. cbn [app obind]. rewrite <- Hsame.
    destruct items as [| item items]; [reflexivity |].
    unfold join_values. rewrite (as_strs_texts _ Htext). cbn [obind truthy].
    remember (texts (item :: items)) as listed eqn:Hlisted.
    destruct listed as [| title listed]; [| reflexivity].
    symmetry in Hlisted. apply texts_nil in Hlisted; [discriminate | exact Htext].
  - intros Htyped. unfold join_values, flagged_titles.
    rewrite (flagged_titles_typed _ Htyped). cbn [obind].
    pose proof (present_titles_nonempty (first :: others)) as Hnonempty.
    remember (present (map title_of (first :: others))) as found eqn:Hfound.
    destruct found as [| title titles].
    + reflexivity.
    + assert (Hne : title <> "") by (apply Hnonempty; now left).
      pose proof (join_nonempty ", " title titles Hne) as Hjoined.
      unfold truthy. destruct (String.eqb_spec (join ", " (title :: titles)) "");
        [contradiction | reflexivity].
Qed.

End FavoritesSummary.

(* ===================================================================== *)
(** ** The favourites file                                               *)
(* ===================================================================== *)

Section FavouritesFile.
Import TmdbTools Spec.

Variable search_movie_id : string -> option Z.

Lemma attach_fresh (movie_id : Z) : attach [] [movie_id] = [movie_id].
Proof. reflexivity. Qed.

(** The add path starts from the empty list when the file is absent or
    is not JSON. *)
Lemma save_favourites_recovers favs w :
  unreadable w -> write_error w = None ->
  favourite_file (save_favourites favs w) = Stored (attach [] favs).
Proof.
  intros Hfile Hwrite. unfold save_favourites, write_file. rewrite Hwrite.
  destruct Hfile as [-> | [error ->]]; reflexivity.
Qed.

Lemma add_favourite_recovers movie_name movie_id w :
  search_movie_id movie_name = Some movie_id -> movie_id <> 0%Z ->
  unreadable w -> write_error w = None ->
  AddFavouriteTool_run search_movie_id movie_name w
  = (("Added " ++ str_int movie_id ++ " to favourites.")%string,
     {| favourite_file := Stored [movie_id]; write_error := None |}).
Proof.
  intros Hfound Hid Hfile Hwrite. unfold AddFavouriteTool_run, resolved.
  rewrite Hfound. destruct (Z.eqb_spec movie_id 0); [contradiction |].
  f_equal. unfold save_favourites, write_file. rewrite Hwrite.
  destruct Hfile as [-> | [error ->]]; reflexivity.
Qed.

(** The delete path treats an absent file as the empty list ... *)
Lemma delete_favourite_absent movie_name movie_id w :
  search_movie_id movie_name = Some movie_id -> movie_id <> 0%Z ->
  favourite_file w = Absent ->
  DeleteFavouriteTool_run search_movie_id movie_name w
  = (("Movie ID " ++ str_int movie_id ++ " not found in favourites.")%string, w).
Proof.
  intros Hfound Hid Hfile. unfold DeleteFavouriteTool_run, resolved.
  rewrite Hfound. destruct (Z.eqb_spec movie_id 0); [contradiction |].
  rewrite Hfile. reflexivity.
Qed.

(** ... but has no handler around [json.load]: a file that is not JSON
    ends in the handler of the whole method. *)
Lemma delete_favourite_unparsable movie_name movie_id error w :
  search_movie_id movie_name = Some movie_id -> movie_id <> 0%Z ->
  favourite_file w = Unparsable error ->
  DeleteFavouriteTool_run search_movie_id movie_name w
  = (("Error deleting favourite " ++ str_int movie_id ++ ": " ++ error)%string, w).
Proof.
  intros Hfound Hid Hfile. unfold DeleteFavouriteTool_run, resolved.
  rewrite Hfound. destruct (Z.eqb_spec movie_id 0); [contradiction |].
  rewrite Hfile. reflexivity.
Qed.

End FavouritesFile.

(* ===================================================================== *)
(** ** The code on concrete inputs                                       *)
(* ===================================================================== *)

Section Examples.
Import ConversationContext ChatService TmdbTools Runs Samples.

(** C1, as first stated, fails on a full history: a default context that
    holds ten messages holds ten messages after a successful turn, not
    twelve. *)
Lemma full_history_does_not_grow :
  let self' :=
    snd (generate_reply sample_repr (search_finds one_movie) agent_ready
           (agent_answers (VStr "Watch Heat."))
           (VStr "Recommend a thriller") false full_history) in
  strip "Recommend a thriller" <> ""
  /\ List.length (messages full_history) = 10%nat
  /\ List.length (messages self') = 10%nat
  /\ List.length (messages self') <> (List.length (messages full_history) + 2)%nat.
Proof. vm_compute. repeat split; discriminate. Qed.

(** C2. The retrieval raises and the agent would answer every prompt
    with "Watch Heat.", yet the reply is the fixed fallback text: the
    agent is not reached. *)
Theorem retrieval_failure_never_reaches_agent :
  (forall query top_k, search_down query top_k = Raise PyException)
  /\ (forall prompt_vars,
        _chat_with_agent sample_repr agent_ready
          (agent_answers (VStr "Watch Heat.")) prompt_vars
        = Ret "Watch Heat.")
  /\ fst (generate_reply sample_repr search_down agent_ready
            (agent_answers (VStr "Watch Heat."))
            (VStr "Recommend a thriller") false fresh)
     = Ret (VStr "Sorry, I am unable to generate a reply at the moment. Please try again later.").
Proof. repeat split. Qed.

(** C3, as first stated, fails on a context of negative capacity: with
    [max_history = -1] and an empty history, the retrieval returns, the
    agent cannot start, the call returns the fallback text, and the
    history is empty afterwards: each of the two appends is followed by
    the slice [messages[1:]], so no assistant message records the text. *)
Lemma negative_capacity_keeps_no_fallback :
  let self :=
    {| max_history := -1; messages := []; movies := []; chromadb_results := [] |} in
  let run :=
    generate_reply sample_repr (search_finds one_movie) agent_unavailable
      agent_fails (VStr "Recommend a thriller") false self in
  strip "Recommend a thriller" <> ""
  /\ search_finds one_movie "Recommend a thriller" 5%Z = Ret one_movie
  /\ agent_unavailable = Raise PyException
  /\ fst run
     = Ret (VStr "Sorry, I am unable to generate a reply at the moment. Please try again later.")
  /\ messages (snd run) = []
  /\ ~ (exists front,
          messages (snd run)
          = front
            ++ [mkMessage "assistant"
                  (VStr "Sorry, I am unable to generate a reply at the moment. Please try again later.")]).
Proof.
  vm_compute. repeat split; try discriminate.
  intros [front Hlast]. destruct front; discriminate.
Qed.

(** C4. With [max_history = 0] nothing is ever evicted: after two
    appends the history holds two messages, more than its capacity. *)
Theorem zero_capacity_is_not_enforced :
  let self' :=
    after_adds (__init__ (Some 0%Z))
      [("user", VStr "hi"); ("assistant", VStr "hello")] in
  messages self'
  = [mkMessage "user" (VStr "hi"); mkMessage "assistant" (VStr "hello")]
  /\ (Z.of_nat (List.length (messages self')) > max_history self')%Z.
Proof. vm_compute. split; reflexivity. Qed.

(** C9. [get_recent(0)] on a history of two messages returns both of
    them, where the last zero messages are none. *)
Theorem get_recent_zero_returns_everything :
  get_recent (Some 0%Z) two_messages
  = (Ret [mkMessage "user" (VStr "q1"); mkMessage "assistant" (VStr "a1")],
     two_messages)
  /\ lastn 0 (messages two_messages) = [].
Proof. split; reflexivity. Qed.

(** C6, as first stated, fails on an entry that carries an empty
    [favorite_movies] list: the wording gives the comma-join of nothing,
    the empty text, and the code gives the "none stored" text. *)
Lemma empty_favorite_list_gives_sentinel :
  Spec.well_typed (map snd (movies empty_list_entry)) = true
  /\ existsb Spec.carries_list (map snd (movies empty_list_entry)) = true
  /\ Spec.favorites_summary_as_worded (map snd (movies empty_list_entry)) = ""
  /\ get_favorite_movies empty_list_entry
     = (Ret "No favorite movies stored.", empty_list_entry)
  /\ fst (get_favorite_movies empty_list_entry)
     <> Ret (Spec.favorites_summary_as_worded (map snd (movies empty_list_entry))).
Proof. vm_compute. repeat split; discriminate. Qed.

(** C7, as first stated, fails on a last message whose content is a list
    of blocks: no reply is extracted, the call raises. And on a last
    message whose content is [None] the reply is the string form of the
    whole response, not that of the message. *)
Lemma non_text_content_is_not_extracted :
  _chat_with_agent sample_repr agent_ready (agent_answers blocks_response)
    sample_vars
  = Raise PyException
  /\ _chat_with_agent sample_repr agent_ready (agent_answers none_response)
       sample_vars
     = Ret "{messages}"
  /\ strip (sample_repr (VDict [("role", VStr "assistant"); ("content", VNone)]))
     = "{role, content}".
Proof. vm_compute. repeat split. Qed.

(** C8. Deleting a favourite while the file is not JSON: the add path
    would start from the empty list, the delete path returns the text of
    the read error. *)
Theorem delete_on_corrupt_file_reports_read_error :
  DeleteFavouriteTool_run finds_inception "Inception" corrupt_file
  = ("Error deleting favourite 27205: Expecting value: line 1 column 1 (char 0)",
     corrupt_file)
  /\ fst (DeleteFavouriteTool_run finds_inception "Inception" corrupt_file)
     <> "Movie ID 27205 not found in favourites."
  /\ AddFavouriteTool_run finds_inception "Inception" corrupt_file
     = ("Added 27205 to favourites.",
        {| favourite_file := Stored [27205%Z]; write_error := None |})
  /\ DeleteFavouriteTool_run finds_inception "Inception" no_file
     = ("Movie ID 27205 not found in favourites.", no_file).
Proof. vm_compute. repeat split; discriminate. Qed.

(** The scenario of the specification: twelve pairs appended to a
    default context leave the last ten messages. *)
Example twelve_appends_keep_last_ten :
  let items :=
    flat_map (fun q => [("user", VStr q); ("assistant", VStr q)])
             ["1"; "2"; "3"; "4"; "5"; "6"] in
  messages (after_adds fresh items) = lastn 10 (map as_message items)
  /\ List.length (messages (after_adds fresh items)) = 10%nat.
Proof. vm_compute. split; reflexivity. Qed.

(** The scenario of the specification: a flagged entry wins over a
    [favorite_movies] list. *)
Example flagged_entry_wins :
  get_favorite_movies scenario_entities = (Ret "A", scenario_entities).
Proof. reflexivity. Qed.

End Examples.

(* ===================================================================== *)
(** ** Instances of the theorems that carry hypotheses                   *)
(* ===================================================================== *)

Section Instances.
Import ConversationContext ChatService TmdbTools Runs Samples.

(** A turn on a history of two messages, with an agent that answers. *)
Lemma generate_reply_two_bounded_appends_witness :
  strip "Recommend a thriller" <> ""
  /\ exists reply self',
       generate_reply sample_repr (search_finds one_movie) agent_ready
         (agent_answers text_response) (VStr "Recommend a thriller") false
         two_messages
       = (Ret reply, self')
       /\ self' = snd (_add_message "assistant" reply
                        (snd (_add_message "user" (VStr "Recommend a thriller")
                                two_messages)))
       /\ ((1 <= max_history two_messages)%Z ->
           messages self'
           = lastn (Z.to_nat (max_history two_messages))
               (messages two_messages
                ++ [mkMessage "user" (VStr "Recommend a thriller");
                    mkMessage "assistant" reply]))
       /\ ((Z.of_nat (List.length (messages two_messages)) + 2
            <= max_history two_messages)%Z ->
           messages self'
           = messages two_messages
             ++ [mkMessage "user" (VStr "Recommend a thriller");
                 mkMessage "assistant" reply]
           /\ List.length (messages self')
              = (List.length (messages two_messages) + 2)%nat).
Proof.
  assert (Htext : strip "Recommend a thriller" <> "")
    by (vm_compute; discriminate).
  split; [exact Htext |].
  exact (generate_reply_two_bounded_appends sample_repr (search_finds one_movie)
           agent_ready (agent_answers text_response) two_messages
           "Recommend a thriller" false Htext).
Defined.


(** A turn whose retrieval finds a movie while the agent cannot start. *)
Lemma agent_failure_gives_fallback_witness :
  strip "Recommend a thriller" <> ""
  /\ search_finds one_movie "Recommend a thriller" 5%Z = Ret one_movie
  /\ agent_unavailable = Raise PyException
  /\ exists self',
       generate_reply sample_repr (search_finds one_movie) agent_unavailable
         (agent_answers text_response) (VStr "Recommend a thriller") false
         two_messages
       = (Ret (VStr "Sorry, I am unable to generate a reply at the moment. Please try again later."),
          self')
       /\ ((0 <= max_history two_messages)%Z ->
           exists front,
             messages self'
             = front
               ++ [mkMessage "assistant"
                     (VStr "Sorry, I am unable to generate a reply at the moment. Please try again later.")]).
Proof.
  assert (Htext : strip "Recommend a thriller" <> "")
    by (vm_compute; discriminate).
  split; [exact Htext |]. split; [reflexivity |]. split; [reflexivity |].
  exact (agent_failure_gives_fallback sample_repr (search_finds one_movie)
           agent_unavailable (agent_answers text_response) two_messages
           "Recommend a thriller" one_movie Htext eq_refl
           (fun _ _ => or_introl (ex_intro _ PyException eq_refl))).
Defined.

(** A blank message, a number in place of the message, and the role
    moderator. *)
Lemma malformed_input_raises_unchanged_witness :
  generate_reply sample_repr (search_finds one_movie) agent_ready
    (agent_answers text_response) (VStr "   ") false two_messages
  = (Raise ValueError, two_messages)
  /\ generate_reply sample_repr (search_finds one_movie) agent_ready
       (agent_answers text_response) (VInt 42) false two_messages
     = (Raise ValueError, two_messages)
  /\ _add_message "moderator" (VStr "hello") two_messages
     = (Raise ValueError, two_messages).
Proof.
  destruct (malformed_input_raises_unchanged sample_repr (search_finds one_movie)
              agent_ready (agent_answers text_response) two_messages)
    as [Hreply Hadd].
  split; [| split].
  - apply Hreply. intros text Htext. injection Htext as <-. reflexivity.
  - apply Hreply. intros text Htext. discriminate Htext.
  - apply Hadd; discriminate.
Defined.

(** The entity map of the specification's scenario. *)
Lemma favorites_three_tiers_witness :
  Spec.well_typed (map snd (movies scenario_entities)) = true
  /\ get_favorite_movies scenario_entities = (Ret "A", scenario_entities).
Proof.
  split; [reflexivity |].
  exact (favorites_three_tiers scenario_entities eq_refl).
Defined.

(** A structured response whose last message is a text with blanks
    around it. *)
Lemma chat_with_agent_extraction_witness :
  agent_ready = Ret tt
  /\ agent_answers text_response (chat_prompt_format sample_repr sample_vars)
     = Ret text_response
  /\ _chat_with_agent sample_repr agent_ready (agent_answers text_response)
       sample_vars
     = Ret "Watch Heat.".
Proof.
  split; [reflexivity |]. split; [reflexivity |].
  destruct (chat_with_agent_extraction sample_repr agent_ready
              (agent_answers text_response) sample_vars text_response
              eq_refl eq_refl) as (_ & Hlast & _).
  exact (Hlast _ [VObj "HumanMessage" [("content", VStr "hi")]]
           (VObj "AIMessage" [("content", VStr "  Watch Heat. ")])
           eq_refl eq_refl).
Defined.

End Instances.

(* ===================================================================== *)
(** ** Further properties of the history buffer                          *)
(* ===================================================================== *)

Section MoreHistory.
Import ConversationContext Runs Props.
Implicit Types (self : t) (role : string) (content : pyval).

Lemma slice_from_is_skipn {A} (i : Z) (l : list A) :
  exists k, slice_from i l = skipn k l.
Proof. unfold slice_from. eexists. reflexivity. Qed.

Lemma Forall_skipn_keep {A} (P : A -> Prop) (k : nat) (l : list A) :
  Forall P l -> Forall P (skipn k l).
Proof.
  intros Hall. rewrite <- (firstn_skipn k l) in Hall.
  apply Forall_app in Hall. tauto.
Qed.

Lemma add_message_roles_ok self role content :
  roles_ok self -> roles_ok (snd (_add_message role content self)).
Proof.
  intros Hok. unfold roles_ok, _add_message in *.
  destruct (role_allowed role) eqn:Hrole; simpl; [| exact Hok].
  assert (Hall : Forall (fun m => role_allowed (ConversationContext.role m) = true)
                   (messages self ++ [mkMessage role content])).
  { apply Forall_app. split; [exact Hok |]. constructor; [exact Hrole | constructor]. }
  destruct (_ >? _)%Z; simpl; [| exact Hall].
  destruct (slice_from_is_skipn (- max_history self)
              (messages self ++ [mkMessage role content])) as [k ->].
  now apply Forall_skipn_keep.
Qed.

(** X1. Whatever the capacity and whatever is asked of it, a context made
    by [__init__] and used through [_add_message] only ever holds messages
    whose role is user, assistant or system. *)
Theorem history_roles_always_allowed (capacity : option Z) items :
  roles_ok (after_adds (__init__ capacity) items).
Proof.
  assert (Hgen : forall self, roles_ok self -> roles_ok (after_adds self items)).
  { induction items as [| item items IH]; intros self Hok; simpl; [exact Hok |].
    apply IH. unfold after_add. now apply add_message_roles_ok. }
  apply Hgen. constructor.
Qed.

(** X2. An append with a role that is not allowed is skipped as a whole:
    a sequence of appends leaves the context that its allowed appends
    alone leave. *)
Theorem rejected_appends_do_nothing self items :
  after_adds self items = after_adds self (filter allowed items).
Proof.
  revert self. induction items as [| item items IH]; intros self; simpl.
  - reflexivity.
  - destruct (allowed item) eqn:Hitem; simpl.
    + apply IH.
    + assert (Hskip : after_add self item = self).
      { unfold after_add. unfold allowed in Hitem.
        now rewrite (add_message_refused self _ _ Hitem). }
      rewrite Hskip. apply IH.
Qed.

(** X3. On a history that is exactly full, with a capacity of at least
    one, an append evicts the oldest message and nothing else: the new
    history is the old one without its first message, followed by the new
    message. *)
Theorem full_history_evicts_oldest self role content :
  role_allowed role = true ->
  (1 <= max_history self)%Z ->
  Z.of_nat (List.length (messages self)) = max_history self ->
  messages (snd (_add_message role content self))
  = tl (messages self) ++ [mkMessage role content].
Proof.
  intros Hrole Hcap Hfull. rewrite add_message_lastn by assumption.
  unfold lastn. rewrite length_app. simpl.
  replace (List.length (messages self) + 1 - Z.to_nat (max_history self))%nat
    with 1%nat by lia.
  destruct (messages self) as [| oldest others]; [simpl in Hfull; lia |].
  reflexivity.
Qed.

(** X4. With a negative capacity [-k] every append is followed by the
    slice [messages[k:]]: the first [k] messages of the extended history
    are dropped, so a history that is empty stays empty. *)
Theorem negative_capacity_drops_from_front self role content :
  role_allowed role = true ->
  (max_history self < 0)%Z ->
  messages (snd (_add_message role content self))
  = skipn (Z.to_nat (- max_history self)) (messages self ++ [mkMessage role content])
  /\ (messages self = [] -> messages (snd (_add_message role content self)) = []).
Proof.
  intros Hrole Hneg.
  assert (Hrun : messages (snd (_add_message role content self))
                 = skipn (Z.to_nat (- max_history self))
                     (messages self ++ [mkMessage role content])).
  { unfold _add_message. rewrite Hrole. simpl.
    destruct (Z.gtb_spec (Z.of_nat (List.length (messages self ++ [mkMessage role content])))
                (max_history self)) as [_ | Hle]; [| lia].
    simpl. apply slice_from_nonpos. lia. }
  split; [exact Hrun |].
  intros Hempty. rewrite Hrun, Hempty. apply skipn_all2. simpl. lia.
Qed.

(** X5. Whatever [n] is, [get_recent(n)] returns a suffix of the history:
    the messages it returns are the last ones, in their order, and the
    context is left as it was. For a negative [n] the suffix is the slice
    [messages[-n:]], all but the first [-n] messages. *)
Theorem get_recent_is_suffix self n :
  (exists dropped recent,
     get_recent n self = (Ret recent, self)
     /\ messages self = dropped ++ recent)
  /\ (forall k, n = Some k -> (k < 0)%Z ->
        fst (get_recent n self) = Ret (skipn (Z.to_nat (- k)) (messages self))).
Proof.
  split.
  - unfold get_recent. destruct n as [n |].
    + destruct (_ >=? _)%Z.
      * exists [], (messages self). auto.
      * destruct (slice_from_is_skipn (- n) (messages self)) as [k Hk].
        exists (firstn k (messages self)), (skipn k (messages self)).
        rewrite Hk, firstn_skipn. auto.
    + exists [], (messages self). auto.
  - intros k -> Hneg. unfold get_recent.
    destruct (Z.geb_spec k (Z.of_nat (List.length (messages self)))) as [Hge | _];
      [lia |].
    simpl. f_equal. apply slice_from_nonpos. lia.
Qed.

Lemma capitalize_allowed (r : string) :
  role_allowed r = true -> capitalize r = speaker r.
Proof.
  unfold role_allowed, speaker. intros Hrole.
  destruct (String.eqb_spec r "user") as [Huser | _]; [now subst r |].
  destruct (String.eqb_spec r "assistant") as [Hassistant | _]; [now subst r |].
  destruct (String.eqb_spec r "system") as [Hsystem | _]; [now subst r | discriminate].
Qed.

(** X6. On a history whose roles are the allowed ones,
    [build_context_history()] returns one line per message, in order,
    each made of User, Assistant or System, a colon and a space, and the
    string form of the content, the lines joined by newlines; it leaves
    the context as it was. *)
Theorem transcript_lines (py_repr : pyval -> string) self :
  roles_ok self ->
  build_context_history py_repr None self
  = (Ret (join nl
            (map (fun m => (speaker (role m) ++ ": "
                            ++ py_str py_repr (content m))%string)
                 (messages self))),
     self).
Proof.
  intros Hok. unfold build_context_history, bind, get_recent, ret.
  do 3 f_equal. apply map_ext_in. intros m Hin.
  unfold roles_ok in Hok. rewrite Forall_forall in Hok.
  rewrite (capitalize_allowed _ (Hok m Hin)). reflexivity.
Qed.

(** X7. [clear()] empties the history, the entity map and the retrieval
    log and keeps the capacity: afterwards the transcript is empty, the
    favourites summary is the "none stored" text, and with a capacity that
    is not negative the next message appended is the only one. *)
Theorem clear_starts_over (py_repr : pyval -> string) self :
  let cleared := snd (clear self) in
  fst (clear self) = Ret tt
  /\ messages cleared = []
  /\ movies cleared = []
  /\ chromadb_results cleared = []
  /\ max_history cleared = max_history self
  /\ build_context_history py_repr None cleared = (Ret "", cleared)
  /\ get_favorite_movies cleared = (Ret "No favorite movies stored.", cleared)
  /\ (forall role content,
        role_allowed role = true -> (0 <= max_history self)%Z ->
        messages (snd (_add_message role content cleared))
        = [mkMessage role content]).
Proof.
  simpl. repeat split.
  intros role content Hrole Hcap.
  unfold _add_message. rewrite Hrole. simpl.
  destruct (Z.gtb_spec 1 (max_history self)) as [Hgt | Hle]; simpl; [| reflexivity].
  assert (Hzero : max_history self = 0%Z) by lia.
  rewrite Hzero. reflexivity.
Qed.

End MoreHistory.

(* ===================================================================== *)
(** ** Further properties of strings and of the favourites summary       *)
(* ===================================================================== *)

Section MoreStrings.
Import Props.

Lemma string_app_assoc (a b c : string) :
  ((a ++ b) ++ c = a ++ (b ++ c))%string.
Proof. induction a as [| x a IH]; simpl; [reflexivity | now rewrite IH]. Qed.

Lemma join_snoc (sep : string) (lines : list string) (line : string) :
  exists before, join sep (lines ++ [line]) = (before ++ line)%string.
Proof.
  induction lines as [| first rest IH].
  - exists "". reflexivity.
  - destruct IH as [before IH].
    exists (first ++ sep ++ before)%string.
    change (join sep ((first :: rest) ++ [line]))
      with (join sep (first :: (rest ++ [line]))).
    destruct (rest ++ [line]) as [| second others] eqn:Hshape.
    + destruct rest; discriminate.
    + change (join sep (first :: second :: others))
        with (first ++ sep ++ join sep (second :: others))%string.
      rewrite IH, !string_app_assoc. reflexivity.
Qed.

Lemma all_space_lstrip s : all_space (lstrip s) = all_space s.
Proof.
  induction s as [| c rest IH]; simpl; [reflexivity |].
  destruct (isspace c) eqn:Hc; simpl; [exact IH | now rewrite Hc].
Qed.

Lemma rstrip_empty s : rstrip s = "" <-> all_space s = true.
Proof.
  induction s as [| c rest IH]; simpl; [tauto |].
  destruct (rstrip rest) as [| d kept] eqn:Hrest.
  - destruct (isspace c); simpl.
    + tauto.
    + split; discriminate.
  - split; [discriminate |].
    intros Hall. apply andb_prop in Hall as [_ Hall].
    apply IH in Hall. discriminate.
Qed.

(** A text is empty after [strip()] exactly when it is made of
    whitespace only. *)
Lemma strip_empty s : strip s = "" <-> all_space s = true.
Proof. unfold strip. rewrite rstrip_empty, all_space_lstrip. tauto. Qed.

Lemma rstrip_idempotent s : rstrip (rstrip s) = rstrip s.
Proof.
  induction s as [| c rest IH]; simpl; [reflexivity |].
  destruct (rstrip rest) as [| d kept] eqn:Hrest.
  - destruct (isspace c) eqn:Hc; simpl; [reflexivity | now rewrite Hc].
  - change (rstrip (String c (String d kept)))
      with (match rstrip (String d kept) with
            | EmptyString => if isspace c then EmptyString else String c EmptyString
            | kept' => String c kept'
            end).
    rewrite IH. reflexivity.
Qed.

Lemma lstrip_head s :
  lstrip s = "" \/ exists c rest, lstrip s = String c rest /\ isspace c = false.
Proof.
  induction s as [| c rest IH]; simpl; [now left |].
  destruct (isspace c) eqn:Hc; [exact IH |].
  right. now exists c, rest.
Qed.

Lemma lstrip_rstrip_head c rest :
  isspace c = false -> lstrip (rstrip (String c rest)) = rstrip (String c rest).
Proof.
  intros Hc. simpl. destruct (rstrip rest); rewrite ?Hc; simpl; now rewrite Hc.
Qed.

Lemma strip_idempotent s : strip (strip s) = strip s.
Proof.
  unfold strip.
  destruct (lstrip_head s) as [-> | (c & rest & -> & Hc)].
  - reflexivity.
  - rewrite (lstrip_rstrip_head c rest Hc). apply rstrip_idempotent.
Qed.

End MoreStrings.

Section MoreFavorites.
Import ConversationContext Props.

Lemma as_strs_chars s : as_strs (chars s) = Ret (letters s).
Proof. induction s as [| c rest IH]; simpl; [reflexivity | now rewrite IH]. Qed.

(** X8. A [favorite_movies] field that holds a single title as a text,
    not a list, is spread into its characters: with no flagged entry and
    that one entry, the summary is the characters of the title joined by
    commas. *)
Theorem text_favorite_list_is_spread self key meta title :
  movies self = [(key, meta)] ->
  is_favorite meta = false ->
  dict_lookup "favorite_movies" meta = Some (VStr title) ->
  title <> "" ->
  get_favorite_movies self = (Ret (join ", " (letters title)), self).
Proof.
  intros Hmovies Hflag Hfield Htitle.
  unfold get_favorite_movies, favorite_movies_of. rewrite Hmovies. simpl.
  rewrite Hflag. unfold dict_get. rewrite Hfield. simpl.
  destruct title as [| c rest]; [congruence |].
  simpl. unfold join_values. simpl. rewrite as_strs_chars. reflexivity.
Qed.

Lemma extend_all_not_iterable values fav_list :
  existsb (fun meta => not_iterable (dict_get "favorite_movies" (VList []) meta))
          values = true ->
  extend_all fav_list values = Raise TypeError.
Proof.
  revert fav_list. induction values as [| meta values IH]; intros fav_list; simpl.
  - discriminate.
  - intros Hsome.
    destruct (dict_get "favorite_movies" (VList []) meta) as [| | | | l | d |] eqn:Hfield;
      simpl in *; try reflexivity; now apply IH.
Qed.

(** X9. With no flagged entry, a single entry whose [favorite_movies]
    field is neither a list, a text nor a dict ([None] or a number for
    example) makes [get_favorite_movies] raise [TypeError], whatever the
    other entries hold. *)
Theorem unusable_favorite_list_raises self :
  filter is_favorite (map snd (movies self)) = [] ->
  existsb (fun meta => not_iterable (dict_get "favorite_movies" (VList []) meta))
          (map snd (movies self)) = true ->
  get_favorite_movies self = (Raise TypeError, self).
Proof.
  intros Hnone Hbad. unfold get_favorite_movies, favorite_movies_of.
  rewrite Hnone, (extend_all_not_iterable _ [] Hbad). reflexivity.
Qed.

End MoreFavorites.

(* ===================================================================== *)
(** ** Further properties of the reply pipeline                          *)
(* ===================================================================== *)

Section MorePipeline.
Import ConversationContext ChatService Runs Props.

Variable py_repr : pyval -> string.
Variable search_movies : string -> Z -> outcome pyval.
Variable start_model : outcome unit.
Variable agent_invoke : string -> outcome pyval.

Local Abbreviation generate_reply :=
  (generate_reply py_repr search_movies start_model agent_invoke).
Local Abbreviation _chat_with_agent :=
  (_chat_with_agent py_repr start_model agent_invoke).

(** X10. [generate_reply] rejects exactly the blank texts: on a string it
    raises [ValueError] if and only if every character of the string is
    whitespace (the empty string included). *)
Theorem blank_texts_are_the_rejected_ones self text chromadb_test :
  fst (generate_reply (VStr text) chromadb_test self) = Raise ValueError
  <-> all_space text = true.
Proof.
  rewrite <- strip_empty. split.
  - intros Hraise.
    destruct (string_dec (strip text) "") as [Hblank | Htext]; [exact Hblank |].
    pose proof (generate_reply_run py_repr search_movies start_model agent_invoke
                  (VStr text) text chromadb_test self
                  (valid_text text Htext)) as Hrun.
    cbv zeta in Hrun. rewrite Hrun in Hraise. discriminate.
  - intros Hblank. unfold ChatService.generate_reply, valid_user_message.
    rewrite Hblank. reflexivity.
Qed.

(** X11. With [chromadb_test=True] the agent plays no part: the call does
    the same with any other agent, and for a text that is not blank the
    reply is what the search returned, or the text "Sorry, ChromaDB search
    is currently unavailable." when the search raised. *)
Theorem chromadb_test_bypasses_agent
    (other_start : outcome unit) (other_invoke : string -> outcome pyval)
    self user_message :
  generate_reply user_message true self
  = ChatService.generate_reply py_repr search_movies other_start other_invoke
      user_message true self
  /\ (forall text,
        user_message = VStr text -> strip text <> "" ->
        fst (generate_reply user_message true self)
        = Ret (match search_movies text 5 with
               | Ret found => found
               | Raise _ => VStr "Sorry, ChromaDB search is currently unavailable."
               end)).
Proof.
  split.
  - destruct (valid_user_message user_message) as [text |] eqn:Hvalid.
    + rewrite (generate_reply_run py_repr search_movies start_model agent_invoke
                 user_message text true self Hvalid).
      rewrite (generate_reply_run py_repr search_movies other_start other_invoke
                 user_message text true self Hvalid).
      unfold final_reply. destruct (search_movies text 5); reflexivity.
    + unfold ChatService.generate_reply. rewrite Hvalid. reflexivity.
  - intros text -> Htext.
    rewrite (generate_reply_run py_repr search_movies start_model agent_invoke
               (VStr text) text true self (valid_text text Htext)).
    unfold final_reply. destruct (search_movies text 5); reflexivity.
Qed.

(** X12. On a turn whose retrieval returns and whose favourites summary
    can be computed, the agent is asked with the prompt variables of the
    context that already holds the user message: for a capacity that is
    not negative the conversation history of the prompt ends with the line
    "User: " followed by the text, and the reply is the agent's answer, or
    the fallback text when the agent stage raises. *)
Theorem healthy_turn_reply self text found favorites :
  strip text <> "" ->
  search_movies text 5 = Ret found ->
  favorite_movies_of (map snd (movies self)) = Ret favorites ->
  (0 <= max_history self)%Z ->
  exists earlier,
    let prompt_vars :=
      mkPromptVars (earlier ++ "User: " ++ text)%string favorites found text in
    fst (generate_reply (VStr text) false self)
    = Ret (match _chat_with_agent prompt_vars with
           | Ret answer => VStr answer
           | Raise _ =>
               VStr "Sorry, I am unable to generate a reply at the moment. Please try again later."
           end).
Proof.
  intros Htext Hsearch Hfavorites Hcap.
  pose proof (generate_reply_run py_repr search_movies start_model agent_invoke
                (VStr text) text false self (valid_text text Htext)) as Hrun.
  cbv zeta in Hrun.
  set (self1 := snd (add_user_message (VStr text) self)) in *.
  destruct (add_message_is_last self "user" (VStr text) eq_refl Hcap)
    as [front Hfront].
  fold (add_user_message (VStr text) self) in Hfront. fold self1 in Hfront.
  destruct (add_message_frame self "user" (VStr text)) as (_ & Hmovies & _).
  fold (add_user_message (VStr text) self) in Hmovies. fold self1 in Hmovies.
  destruct (join_snoc nl
              (map (fun m => (capitalize (role m) ++ ": "
                              ++ py_str py_repr (content m))%string) front)
              ("User: " ++ text)%string) as [earlier Hjoin].
  assert (Htranscript : transcript py_repr self1 = (earlier ++ "User: " ++ text)%string).
  { unfold transcript. rewrite Hfront, map_app. exact Hjoin. }
  exists earlier. cbv zeta. rewrite Hrun. cbn [fst].
  unfold final_reply. rewrite Hsearch, Hmovies, Hfavorites, Htranscript.
  reflexivity.
Qed.

(** X13. An entity map on which [get_favorite_movies] raises costs every
    turn its answer: although the retrieval and the agent may work, the
    reply of [generate_reply] is the fallback text. *)
Theorem unusable_entities_give_fallback self text e :
  strip text <> "" ->
  favorite_movies_of (map snd (movies self)) = Raise e ->
  fst (generate_reply (VStr text) false self)
  = Ret (VStr "Sorry, I am unable to generate a reply at the moment. Please try again later.").
Proof.
  intros Htext Hfavorites.
  pose proof (generate_reply_run py_repr search_movies start_model agent_invoke
                (VStr text) text false self (valid_text text Htext)) as Hrun.
  cbv zeta in Hrun.
  set (self1 := snd (add_user_message (VStr text) self)) in *.
  destruct (add_message_frame self "user" (VStr text)) as (_ & Hmovies & _).
  fold (add_user_message (VStr text) self) in Hmovies. fold self1 in Hmovies.
  rewrite Hrun. cbn [fst].
  unfold final_reply. rewrite Hmovies, Hfavorites.
  destruct (search_movies text 5); reflexivity.
Qed.

(** [_chat_with_agent] raises only [ValueError] or [Exception]: a
    [ValueError] of the agent's initialisation or invocation is raised
    again as a [ValueError], every other error as an [Exception]. *)
Lemma chat_with_agent_error_classes prompt_vars :
  (forall e, _chat_with_agent prompt_vars = Raise e ->
             e = ValueError \/ e = PyException)
  /\ (forall e, start_model = Raise e ->
                _chat_with_agent prompt_vars
                = Raise (if is_ValueError e then ValueError else PyException))
  /\ (forall e, start_model = Ret tt ->
                agent_invoke (chat_prompt_format py_repr prompt_vars) = Raise e ->
                _chat_with_agent prompt_vars
                = Raise (if is_ValueError e then ValueError else PyException)).
Proof.
  unfold ChatService._chat_with_agent. repeat split.
  - intros e. unfold rewrap.
    destruct (obind start_model _) as [answer | inner]; [discriminate |].
    destruct (is_ValueError inner); intros Hraise; injection Hraise as <-; auto.
  - intros e ->. simpl. destruct (is_ValueError e); reflexivity.
  - intros e -> Hinvoke. simpl. rewrite Hinvoke. simpl.
    destruct (is_ValueError e); reflexivity.
Qed.

Lemma call_strip_trimmed v r : call_strip v = Ret r -> strip r = r.
Proof.
  destruct v; simpl; try discriminate.
  intros Hr. injection Hr as <-. apply strip_idempotent.
Qed.

(** X14. A reply extracted from a plain string, or from a dict with a
    [messages] entry, carries no whitespace at its ends: trimming it again
    changes nothing. *)
Theorem extracted_reply_is_trimmed prompt_vars response reply :
  start_model = Ret tt ->
  agent_invoke (chat_prompt_format py_repr prompt_vars) = Ret response ->
  (Spec.is_text response = true \/ Spec.has_messages response = true) ->
  _chat_with_agent prompt_vars = Ret reply ->
  strip reply = reply.
Proof.
  intros Hstart Hinvoke Hshape.
  rewrite (chat_with_agent_extracts py_repr start_model agent_invoke
             prompt_vars response Hstart Hinvoke).
  unfold rewrap.
  destruct (extract_reply py_repr response) as [answer |] eqn:Hextract;
    [| destruct (is_ValueError e); discriminate].
  intros Hreply. injection Hreply as <-.
  destruct response; simpl in Hshape; try (destruct Hshape; discriminate).
  - simpl in Hextract. injection Hextract as <-. apply strip_idempotent.
  - destruct Hshape as [Hshape | Hshape]; [discriminate |].
    unfold extract_reply in Hextract. rewrite Hshape in Hextract.
    destruct (if truthy (dict_get "messages" VNone d) then _ else _)
      as [last_msg |]; [| discriminate].
    simpl in Hextract. now apply call_strip_trimmed in Hextract.
Qed.

End MorePipeline.

(* ===================================================================== *)
(** ** Further properties of the favourites tools                        *)
(* ===================================================================== *)

Section MoreTools.
Import TmdbTools.

Variable search_movie_id : string -> option Z.

Lemma contains_In x l : contains x l = true <-> In x l.
Proof.
  unfold contains. rewrite existsb_exists. split.
  - intros (y & Hin & Heq). apply Z.eqb_eq in Heq. now subst y.
  - intros Hin. exists x. split; [exact Hin | apply Z.eqb_refl].
Qed.

Lemma contains_not_In x l : contains x l = false <-> ~ In x l.
Proof.
  rewrite <- contains_In. destruct (contains x l); split; congruence.
Qed.

(** What the loop of [save_favourites] adds to the list it starts from. *)
Lemma attach_adds existing_favs favs :
  exists added,
    attach existing_favs favs = existing_favs ++ added
    /\ NoDup added
    /\ (forall x, In x added <-> In x favs /\ ~ In x existing_favs).
Proof.
  unfold attach. revert existing_favs.
  induction favs as [| fav favs IH]; intros existing_favs; simpl.
  - exists []. rewrite app_nil_r.
    split; [reflexivity |]. split; [constructor |]. simpl. tauto.
  - destruct (contains fav existing_favs) eqn:Hknown.
    + destruct (IH existing_favs) as (added & Hrun & Hnodup & Hin).
      exists added. split; [exact Hrun |]. split; [exact Hnodup |].
      intros x. rewrite Hin. split.
      * intros [Hfavs Hnew]. auto.
      * intros [[<- | Hfavs] Hnew]; [| auto].
        apply contains_In in Hknown. contradiction.
    + apply contains_not_In in Hknown.
      destruct (IH (existing_favs ++ [fav])) as (added & Hrun & Hnodup & Hin).
      exists (fav :: added). rewrite Hrun, <- app_assoc. simpl.
      split; [reflexivity |]. split.
      * constructor; [| exact Hnodup].
        intros Hfav. apply Hin in Hfav as [_ Hfav]. apply Hfav.
        apply in_or_app. right. now left.
      * intros x. split.
        -- intros [<- | Hx]; [auto |].
           apply Hin in Hx as [Hfavs Hx]. split; [now right |].
           intros Hold. apply Hx. apply in_or_app. now left.
        -- intros [[<- | Hfavs] Hnew]; [now left |].
           destruct (Z.eq_dec fav x) as [<- | Hdiff]; [now left |].
           right. apply Hin. split; [exact Hfavs |].
           intros Hold. apply in_app_or in Hold as [Hold | [Hold | []]];
             [contradiction | congruence].
Qed.

Lemma attach_known existing_favs favs :
  (forall x, In x favs -> In x existing_favs) ->
  attach existing_favs favs = existing_favs.
Proof.
  unfold attach. induction favs as [| fav favs IH]; intros Hknown; simpl.
  - reflexivity.
  - assert (Hfav : contains fav existing_favs = true)
      by (apply contains_In, Hknown; now left).
    rewrite Hfav. apply IH. intros x Hx. apply Hknown. now right.
Qed.

(** X15. On a stored list, with a file that can be written,
    [save_favourites] keeps the stored ids where they are and appends,
    once each, the new ids that were not stored yet: a list without
    duplicates stays without duplicates. *)
Theorem save_favourites_appends_new_ids favs w ids :
  favourite_file w = Stored ids ->
  write_error w = None ->
  exists added,
    favourite_file (save_favourites favs w) = Stored (ids ++ added)
    /\ NoDup added
    /\ (forall x, In x added <-> In x favs /\ ~ In x ids)
    /\ (NoDup ids -> NoDup (ids ++ added)).
Proof.
  intros Hfile Hwrite.
  destruct (attach_adds ids favs) as (added & Hrun & Hnodup & Hin).
  exists added. unfold save_favourites, write_file. rewrite Hfile, Hwrite, Hrun.
  split; [reflexivity |]. split; [exact Hnodup |]. split; [exact Hin |].
  intros Hids. apply NoDup_app; try assumption.
  intros x Hold Hnew. apply Hin in Hnew as [_ Hnew]. contradiction.
Qed.

(** X16. Saving the same favourites a second time changes nothing, as
    long as the file can be written. *)
Theorem save_favourites_idempotent favs w :
  write_error w = None ->
  save_favourites favs (save_favourites favs w) = save_favourites favs w.
Proof.
  intros Hwrite.
  assert (Hstep : forall existing,
            attach (attach existing favs) favs = attach existing favs).
  { intros existing. apply attach_known. intros x Hx.
    destruct (attach_adds existing favs) as (added & -> & _ & Hin).
    destruct (in_dec Z.eq_dec x existing) as [Hold | Hnew].
    - apply in_or_app. now left.
    - apply in_or_app. right. apply Hin. auto. }
  unfold save_favourites, write_file. rewrite Hwrite. simpl.
  destruct (favourite_file w); rewrite Hstep; reflexivity.
Qed.


Lemma filter_other_notin x l :
  ~ In x l -> filter (fun y => negb (y =? x)%Z) l = l.
Proof.
  induction l as [| y l IH]; simpl; [reflexivity |].
  intros Hnot. destruct (Z.eqb_spec y x) as [-> | _]; simpl.
  - exfalso. apply Hnot. now left.
  - rewrite IH; [reflexivity | tauto].
Qed.

Lemma remove_first_nodup x l :
  NoDup l -> remove_first x l = filter (fun y => negb (y =? x)%Z) l.
Proof.
  induction l as [| y l IH]; simpl; [reflexivity |].
  intros Hnodup. inversion Hnodup as [| ? ? Hnot Hrest]; subst.
  destruct (Z.eqb_spec y x) as [-> | _]; simpl.
  - symmetry. now apply filter_other_notin.
  - now rewrite IH.
Qed.

Lemma remove_first_count x l :
  In x l ->
  S (count_occ Z.eq_dec (remove_first x l) x) = count_occ Z.eq_dec l x
  /\ forall y, y <> x ->
       count_occ Z.eq_dec (remove_first x l) y = count_occ Z.eq_dec l y.
Proof.
  induction l as [| z l IH]; simpl; [contradiction |].
  intros Hin. destruct (Z.eqb_spec z x) as [-> | Hdiff].
  - destruct (Z.eq_dec x x) as [_ | Hne]; [| congruence].
    split; [reflexivity |].
    intros y Hy. destruct (Z.eq_dec x y); [congruence | reflexivity].
  - destruct Hin as [Heq | Hin]; [congruence |].
    destruct (IH Hin) as [Hcount Hothers]. simpl.
    destruct (Z.eq_dec z x) as [Heq | _]; [congruence |].
    split; [exact Hcount |].
    intros y Hy. destruct (Z.eq_dec z y); rewrite (Hothers y Hy); reflexivity.
Qed.

(** X18. Deleting a favourite that is stored, with a file that can be
    written, answers "Deleted ... from favourites." and removes one
    occurrence of the id, the first, leaving the other ids as they were:
    from a list without duplicates the id is gone and the rest keeps its
    order. *)
Theorem delete_removes_first_occurrence movie_name movie_id w ids :
  resolved (search_movie_id movie_name) = Some movie_id ->
  favourite_file w = Stored ids ->
  In movie_id ids ->
  write_error w = None ->
  DeleteFavouriteTool_run search_movie_id movie_name w
  = (("Deleted " ++ str_int movie_id ++ " from favourites.")%string,
     {| favourite_file := Stored (remove_first movie_id ids); write_error := None |})
  /\ S (count_occ Z.eq_dec (remove_first movie_id ids) movie_id)
     = count_occ Z.eq_dec ids movie_id
  /\ (forall other, other <> movie_id ->
        count_occ Z.eq_dec (remove_first movie_id ids) other
        = count_occ Z.eq_dec ids other)
  /\ (NoDup ids ->
      remove_first movie_id ids = filter (fun y => negb (y =? movie_id)%Z) ids
      /\ ~ In movie_id (remove_first movie_id ids)).
Proof.
  intros Hfound Hfile Hin Hwrite.
  destruct (remove_first_count movie_id ids Hin) as [Hcount Hothers].
  split; [| split; [exact Hcount | split; [exact Hothers |]]].
  - unfold DeleteFavouriteTool_run, write_file.
    rewrite Hfound, Hfile, Hwrite.
    apply contains_In in Hin. rewrite Hin. reflexivity.
  - intros Hnodup. split; [now apply remove_first_nodup |].
    rewrite (remove_first_nodup _ _ Hnodup). intros Hstill.
    apply filter_In in Hstill as [_ Hstill].
    rewrite Z.eqb_refl in Hstill. discriminate.
Qed.

Lemma remove_first_snoc x l : ~ In x l -> remove_first x (l ++ [x]) = l.
Proof.
  induction l as [| y l IH]; simpl; intros Hnot.
  - now rewrite Z.eqb_refl.
  - destruct (Z.eqb_spec y x) as [-> | _]; [tauto |].
    rewrite IH; [reflexivity | tauto].
Qed.

(** X19. Adding a favourite that was not stored and deleting it again
    gives back the stored list as it was. *)
Theorem add_then_delete_restores movie_name movie_id ids :
  resolved (search_movie_id movie_name) = Some movie_id ->
  ~ In movie_id ids ->
  let w := {| favourite_file := Stored ids; write_error := None |} in
  snd (DeleteFavouriteTool_run search_movie_id movie_name
         (snd (AddFavouriteTool_run search_movie_id movie_name w)))
  = w.
Proof.
  intros Hfound Hnew w.
  unfold AddFavouriteTool_run, DeleteFavouriteTool_run. rewrite Hfound.
  unfold save_favourites, write_file, attach. simpl.
  apply contains_not_In in Hnew. rewrite Hnew.
  assert (Hnow : contains movie_id (ids ++ [movie_id]) = true)
    by (apply contains_In, in_or_app; right; now left).
  rewrite Hnow. simpl. rewrite remove_first_snoc; [reflexivity |].
  now apply contains_not_In.
Qed.


End MoreTools.

(* ===================================================================== *)
(** ** The catalogue client and the details tool                         *)
(* ===================================================================== *)

Section Catalogue.
Import TMDbClient Props.

Lemma directors_of_dicts crew :
  forallb is_dict crew = true ->
  directors_of crew = Ret (filter directs crew).
Proof.
  induction crew as [| member crew IH]; simpl; [reflexivity |].
  intros Hall. apply andb_prop in Hall as [Hmember Hcrew].
  rewrite (IH Hcrew). destruct member; try discriminate.
  unfold is_director, get, dict_get. simpl.
  destruct (dict_lookup "job" d) as [[] |]; reflexivity.
Qed.

(** X21. From a credits body whose [cast] and [crew] are lists (or are
    absent) and whose crew members are dicts, [get_movie_credits] keeps
    the first five cast members at most, in their order, and exactly the
    crew members whose job is Director, in their order. *)
Theorem credits_keep_top_cast_and_directors d :
  list_or_absent "cast" d = true ->
  list_or_absent "crew" d = true ->
  forallb is_dict (field_list "crew" d) = true ->
  get_movie_credits (Ret (VDict d))
  = Ret (VDict [("cast", VList (firstn 5 (field_list "cast" d)));
                ("director", VList (filter directs (field_list "crew" d)))])
  /\ (List.length (firstn 5 (field_list "cast" d)) <= 5)%nat.
Proof.
  intros Hcast Hcrew Hmembers. split; [| apply firstn_le_length].
  assert (Hget : forall key,
            list_or_absent key d = true ->
            get (VDict d) key (VList []) = Ret (VList (field_list key d))).
  { intros key Hkey. unfold get, dict_get, field_list, list_or_absent in *.
    destruct (dict_lookup key d) as [[] |]; try discriminate; reflexivity. }
  unfold get_movie_credits, credits_of. cbn [obind].
  rewrite (Hget "cast" Hcast). cbn [obind slice_to].
  rewrite (Hget "crew" Hcrew). cbn [obind ConversationContext.iterate].
  rewrite (directors_of_dicts _ Hmembers). reflexivity.
Qed.

Lemma client_without_key : __init__ (Some "") "" = Raise ValueError.
Proof. reflexivity. Qed.

Lemma client_with_key (given constant : string) :
  given <> "" \/ constant <> "" ->
  exists key, __init__ (Some given) constant = Ret key /\ key <> "".
Proof.
  intros Hkey. unfold __init__, truthy.
  destruct (String.eqb_spec given "") as [-> | Hgiven]; simpl.
  - destruct (String.eqb_spec constant "") as [-> | Hconstant]; simpl.
    + destruct Hkey; contradiction.
    + now exists constant.
  - destruct (String.eqb_spec given ""); [contradiction |]. now exists given.
Qed.

Variable env_key : string.
Variable TMDB_API_KEY : string.
Variable search_movie_id : string -> option Z.
Variable get_movie_details : Z -> outcome pyval.

Local Abbreviation GetMovieDetailsTool_run :=
  (MovieDetails.GetMovieDetailsTool_run env_key TMDB_API_KEY search_movie_id
     get_movie_details).

(** X22. Without any API key the details tool does not answer with an
    error text: the client cannot be built, the handler formats a
    [movie_id] that is not bound yet, and [_run] raises
    [UnboundLocalError]. With a key it always returns: the details when
    the catalogue gives some, the text "Error getting details for movie ID
    ..." when the request fails or gives nothing, the not-found text when
    the name does not resolve. *)
Theorem details_tool_needs_a_key movie_name :
  (env_key = "" -> TMDB_API_KEY = "" ->
   GetMovieDetailsTool_run movie_name = Raise UnboundLocalError)
  /\ (env_key <> "" \/ TMDB_API_KEY <> "" ->
      GetMovieDetailsTool_run movie_name
      = Ret (match TmdbTools.resolved (search_movie_id movie_name) with
             | None =>
                 VStr ("Movie '" ++ movie_name ++ "' not found. Cannot get details.")
             | Some movie_id =>
                 match get_movie_details movie_id with
                 | Ret response =>
                     if truthy response then response
                     else VStr ("Error getting details for movie ID "
                                ++ str_int movie_id)
                 | Raise _ =>
                     VStr ("Error getting details for movie ID " ++ str_int movie_id)
                 end
             end)%string).
Proof.
  unfold MovieDetails.GetMovieDetailsTool_run. split.
  - intros -> ->. rewrite client_without_key. reflexivity.
  - intros Hkey. destruct (client_with_key _ _ Hkey) as (key & -> & _).
    destruct (TmdbTools.resolved (search_movie_id movie_name)) as [movie_id |];
      [| reflexivity].
    destruct (get_movie_details movie_id) as [response |]; [| reflexivity].
    destruct (truthy response); reflexivity.
Qed.

End Catalogue.

(* ===================================================================== *)
(** ** The registry of contexts and the chat endpoint                    *)
(* ===================================================================== *)

Section Registry.
Import ConversationContext ChatService Agent.

Lemma lookup_update_same user_id c contexts :
  lookup user_id (update user_id c contexts) = Some c.
Proof.
  induction contexts as [| [k old] rest IH]; simpl.
  - now rewrite String.eqb_refl.
  - destruct (String.eqb k user_id) eqn:Hk; simpl; now rewrite Hk.
Qed.

Lemma lookup_update_other user_id other c contexts :
  other <> user_id ->
  lookup other (update user_id c contexts) = lookup other contexts.
Proof.
  intros Hother. induction contexts as [| [k old] rest IH]; simpl.
  - destruct (String.eqb_spec user_id other); [congruence | reflexivity].
  - destruct (String.eqb_spec k user_id) as [-> | Hk]; simpl.
    + destruct (String.eqb_spec user_id other); [congruence | reflexivity].
    + now rewrite IH.
Qed.

Lemma get_context_known user_id contexts c :
  lookup user_id contexts = Some c -> get_context user_id contexts = (c, contexts).
Proof. intros Hknown. unfold get_context. now rewrite Hknown. Qed.

Lemma get_context_new user_id contexts :
  lookup user_id contexts = None ->
  get_context user_id contexts
  = (__init__ None, update user_id (__init__ None) contexts).
Proof. intros Hnew. unfold get_context. now rewrite Hnew. Qed.

Lemma get_context_registered user_id contexts :
  lookup user_id (snd (get_context user_id contexts))
  = Some (fst (get_context user_id contexts)).
Proof.
  destruct (lookup user_id contexts) as [c |] eqn:Hknown.
  - rewrite (get_context_known _ _ _ Hknown). exact Hknown.
  - rewrite (get_context_new _ _ Hknown). apply lookup_update_same.
Qed.

Lemma get_context_others user_id other contexts :
  other <> user_id ->
  lookup other (snd (get_context user_id contexts)) = lookup other contexts.
Proof.
  intros Hother. destruct (lookup user_id contexts) as [c |] eqn:Hknown.
  - now rewrite (get_context_known _ _ _ Hknown).
  - rewrite (get_context_new _ _ Hknown). now apply lookup_update_other.
Qed.

(** X23. [get_context] gets or creates: the context it returns is the one
    registered under the user id afterwards; a user that is not known
    gets a new default context and a known user the registered one, the
    registry staying as it was; asking again gives the same; and the
    entries of the other users are never touched. *)
Theorem get_context_gets_or_creates user_id contexts :
  lookup user_id (snd (get_context user_id contexts))
  = Some (fst (get_context user_id contexts))
  /\ (lookup user_id contexts = None ->
      fst (get_context user_id contexts) = __init__ None)
  /\ (forall c, lookup user_id contexts = Some c ->
                get_context user_id contexts = (c, contexts))
  /\ get_context user_id (snd (get_context user_id contexts))
     = get_context user_id contexts
  /\ (forall other, other <> user_id ->
        lookup other (snd (get_context user_id contexts)) = lookup other contexts).
Proof.
  split; [apply get_context_registered |].
  split; [intros Hnew; now rewrite (get_context_new _ _ Hnew) |].
  split; [intros c; apply get_context_known |].
  split; [| intros other; apply get_context_others].
  rewrite (get_context_known _ _ _ (get_context_registered user_id contexts)).
  now destruct (get_context user_id contexts).
Qed.

Variable py_repr : pyval -> string.
Variable search_movies : string -> Z -> outcome pyval.
Variable start_model : outcome unit.
Variable agent_invoke : string -> outcome pyval.

Local Abbreviation generate_reply :=
  (generate_reply py_repr search_movies start_model agent_invoke).
Local Abbreviation chat :=
  (Agent.chat py_repr search_movies start_model agent_invoke).

Lemma chat_run user_id message contexts :
  chat user_id message contexts
  = (obind (fst (generate_reply (VStr message) false
                   (fst (get_context user_id contexts))))
           (fun r => Ret (VDict [("reply", r)])),
     update user_id
       (snd (generate_reply (VStr message) false
               (fst (get_context user_id contexts))))
       (snd (get_context user_id contexts))).
Proof.
  unfold Agent.chat. destruct (get_context user_id contexts) as [context contexts1].
  simpl. destruct (ChatService.generate_reply _ _ _ _ _ _ _) as [reply context'].
  reflexivity.
Qed.

(** X24. A request to the chat endpoint touches the context of its user
    only: the entries of all other users are as before, and the entry of
    the user is the user's context (created if need be) after
    [generate_reply]. On a blank message the request fails with
    [ValueError], and the user's context, created if need be, is left
    without a new message. *)
Theorem chat_touches_one_context user_id message contexts :
  (forall other, other <> user_id ->
     lookup other (snd (chat user_id message contexts)) = lookup other contexts)
  /\ lookup user_id (snd (chat user_id message contexts))
     = Some (snd (generate_reply (VStr message) false
                    (fst (get_context user_id contexts))))
  /\ (strip message = "" ->
      fst (chat user_id message contexts) = Raise ValueError
      /\ lookup user_id (snd (chat user_id message contexts))
         = Some (fst (get_context user_id contexts))).
Proof.
  rewrite chat_run. cbn [fst snd].
  split; [| split].
  - intros other Hother. rewrite lookup_update_other by assumption.
    now apply get_context_others.
  - apply lookup_update_same.
  - intros Hblank. rewrite lookup_update_same.
    unfold ChatService.generate_reply, valid_user_message. rewrite Hblank.
    simpl. auto.
Qed.

Lemma generate_reply_with_room self text :
  strip text <> "" ->
  (Z.of_nat (List.length (messages self)) + 2 <= max_history self)%Z ->
  exists reply self',
    generate_reply (VStr text) false self = (Ret reply, self')
    /\ messages self'
       = messages self ++ [mkMessage "user" (VStr text); mkMessage "assistant" reply]
    /\ max_history self' = max_history self.
Proof.
  intros Htext Hroom.
  pose proof (generate_reply_run py_repr search_movies start_model agent_invoke
                (VStr text) text false self (valid_text text Htext)) as Hrun.
  cbv zeta in Hrun. unfold add_user_message, add_assistant_message in Hrun.
  set (self1 := snd (_add_message "user" (VStr text) self)) in *.
  set (reply := Runs.final_reply py_repr search_movies start_model agent_invoke
                  text false self1) in *.
  destruct (add_message_frame self "user" (VStr text)) as (Hcap1 & _).
  fold self1 in Hcap1.
  destruct (add_message_frame self1 "assistant" reply) as (Hcap2 & _).
  exists reply, (snd (_add_message "assistant" reply self1)).
  split; [exact Hrun |]. split; [| congruence].
  rewrite add_message_lastn by (auto; lia).
  subst self1. rewrite Hcap1, add_message_lastn by (auto; lia).
  rewrite (lastn_all _ (messages self ++ [mkMessage "user" (VStr text)]))
    by (rewrite length_app; simpl; lia).
  rewrite lastn_all by (rewrite !length_app; simpl; lia).
  rewrite <- app_assoc. reflexivity.
Qed.

(** X25. Contexts persist between requests: after two requests with
    messages that are not blank, a user who was not known has a history
    of four messages, the two messages and the two replies that the
    endpoint returned, in the order of the conversation. *)
Theorem two_requests_accumulate user_id first second contexts :
  lookup user_id contexts = None ->
  strip first <> "" ->
  strip second <> "" ->
  exists reply1 reply2 context,
    fst (chat user_id first contexts) = Ret (VDict [("reply", reply1)])
    /\ fst (chat user_id second (snd (chat user_id first contexts)))
       = Ret (VDict [("reply", reply2)])
    /\ lookup user_id (snd (chat user_id second (snd (chat user_id first contexts))))
       = Some context
    /\ messages context
       = [mkMessage "user" (VStr first); mkMessage "assistant" reply1;
          mkMessage "user" (VStr second); mkMessage "assistant" reply2].
Proof.
  intros Hnew Hfirst Hsecond.
  assert (Hfresh : fst (get_context user_id contexts) = __init__ None)
    by now rewrite (get_context_new _ _ Hnew).
  destruct (generate_reply_with_room (__init__ None) first Hfirst)
    as (reply1 & context1 & Hrun1 & Hmessages1 & Hcap1); [simpl; lia |].
  destruct (generate_reply_with_room context1 second Hsecond)
    as (reply2 & context2 & Hrun2 & Hmessages2 & Hcap2).
  { rewrite Hmessages1, Hcap1. simpl. lia. }
  assert (Hafter : snd (chat user_id first contexts)
                   = update user_id context1 (snd (get_context user_id contexts))).
  { rewrite chat_run. cbn [snd]. rewrite Hfresh, Hrun1. reflexivity. }
  assert (Hagain : get_context user_id (snd (chat user_id first contexts))
                   = (context1, snd (chat user_id first contexts))).
  { apply get_context_known. rewrite Hafter. apply lookup_update_same. }
  exists reply1, reply2, context2. split; [| split; [| split]].
  - rewrite chat_run. cbn [fst]. rewrite Hfresh, Hrun1. reflexivity.
  - rewrite chat_run. cbn [fst]. rewrite Hagain. cbn [fst]. rewrite Hrun2. reflexivity.
  - rewrite (chat_run user_id second). cbn [snd]. rewrite Hagain. cbn [fst snd].
    rewrite Hrun2. apply lookup_update_same.
  - rewrite Hmessages2, Hmessages1. reflexivity.
Qed.

End Registry.

(* ===================================================================== *)
(** ** Ingestion                                                         *)
(* ===================================================================== *)

Section MoreIngestion.
Import TMDbClient Ingestion Props.

Variable py_repr : pyval -> string.

Local Abbreviation py_str := (ConversationContext.py_str py_repr).
Local Abbreviation build_text_representation :=
  (Ingestion.build_text_representation py_repr).

(** X26. [build_text_representation] needs the six fields title, genres,
    director, cast, year and overview, and no other: on a dict that holds
    them it returns the text made of their string forms, on a dict that
    lacks one of them it raises [KeyError]. *)
Theorem text_needs_six_fields d :
  (has_keys text_keys (VDict d) = true ->
   build_text_representation (VDict d)
   = Ret ("Title: " ++ py_str (dict_get "title" VNone d) ++ ". "
          ++ "Genres: " ++ py_str (dict_get "genres" VNone d) ++ ". "
          ++ "Director: " ++ py_str (dict_get "director" VNone d) ++ ". "
          ++ "Main cast: " ++ py_str (dict_get "cast" VNone d) ++ ". "
          ++ "Year: " ++ py_str (dict_get "year" VNone d) ++ ". "
          ++ "Overview: " ++ py_str (dict_get "overview" VNone d))%string)
  /\ (has_keys text_keys (VDict d) = false ->
      build_text_representation (VDict d) = Raise KeyError).
Proof.
  unfold Ingestion.build_text_representation, has_keys, text_keys, subscript,
    dict_contains, dict_get.
  cbn [forallb].
  destruct (dict_lookup "title" d); cbn [obind andb]; [| split; [discriminate | reflexivity]].
  destruct (dict_lookup "genres" d); cbn [obind andb]; [| split; [discriminate | reflexivity]].
  destruct (dict_lookup "director" d); cbn [obind andb]; [| split; [discriminate | reflexivity]].
  destruct (dict_lookup "cast" d); cbn [obind andb]; [| split; [discriminate | reflexivity]].
  destruct (dict_lookup "year" d); cbn [obind andb]; [| split; [discriminate | reflexivity]].
  destruct (dict_lookup "overview" d); cbn [obind andb]; [| split; [discriminate | reflexivity]].
  split; [reflexivity | discriminate].
Qed.

Variable Store : Type.
Variable connect : outcome unit.
Variable collection_add : pyval -> string -> pyval -> Store -> outcome unit * Store.

Local Abbreviation ingest_one := (Ingestion.ingest_one py_repr Store collection_add).
Local Abbreviation ingest_all := (Ingestion.ingest_all py_repr Store collection_add).
Local Abbreviation ingest_movies :=
  (Ingestion.ingest_movies py_repr Store connect collection_add).

Lemma ingest_one_cases d store :
  (has_keys ingest_keys (VDict d) = true -> fst (ingest_one (VDict d) store) = Ret tt)
  /\ (has_keys ingest_keys (VDict d) = false ->
      ingest_one (VDict d) store = (Raise KeyError, store)).
Proof.
  unfold Ingestion.ingest_one, Ingestion.build_text_representation,
    Ingestion.metadata_of, has_keys, ingest_keys, subscript, dict_contains.
  cbn [forallb].
  destruct (dict_lookup "title" d); cbn [obind andb]; [| split; [discriminate | reflexivity]].
  destruct (dict_lookup "genres" d); cbn [obind andb]; [| split; [discriminate | reflexivity]].
  destruct (dict_lookup "director" d); cbn [obind andb]; [| split; [discriminate | reflexivity]].
  destruct (dict_lookup "cast" d); cbn [obind andb]; [| split; [discriminate | reflexivity]].
  destruct (dict_lookup "year" d); cbn [obind andb]; [| split; [discriminate | reflexivity]].
  destruct (dict_lookup "overview" d); cbn [obind andb]; [| split; [discriminate | reflexivity]].
  destruct (dict_lookup "rating" d); cbn [obind andb]; [| split; [discriminate | reflexivity]].
  destruct (dict_lookup "id" d); cbn [obind andb]; [| split; [discriminate | reflexivity]].
  split; [| discriminate]. intros _.
  destruct (collection_add _ _ _ store) as [[done | e] store']; reflexivity.
Qed.

Lemma ingest_all_complete movies store :
  forallb (has_keys ingest_keys) movies = true ->
  fst (ingest_all movies store) = Ret tt.
Proof.
  revert store. induction movies as [| m movies IH]; intros store; simpl.
  - reflexivity.
  - intros Hall. apply andb_prop in Hall as [Hm Hmovies].
    destruct m; try discriminate.
    pose proof (proj1 (ingest_one_cases d store) Hm) as Hone.
    destruct (ingest_one (VDict d) store) as [[done | e] store']; [| discriminate].
    now apply IH.
Qed.

Lemma ingest_all_stops good d rest store :
  forallb (has_keys ingest_keys) good = true ->
  has_keys ingest_keys (VDict d) = false ->
  ingest_all (good ++ VDict d :: rest) store
  = (Raise KeyError, snd (ingest_all good store)).
Proof.
  revert store. induction good as [| m good IH]; intros store Hgood Hbad; simpl.
  - now rewrite (proj2 (ingest_one_cases d store) Hbad).
  - simpl in Hgood. apply andb_prop in Hgood as [Hm Hgood].
    destruct m as [| | | | | dm |]; try discriminate.
    pose proof (proj1 (ingest_one_cases dm store) Hm) as Hone.
    destruct (ingest_one (VDict dm) store) as [[done | e] store']; [| discriminate].
    now apply IH.
Qed.


Variable TMDB_API_KEY : string.
Variable get_top_rated : Z -> outcome pyval.
Variable get_movie_details : pyval -> outcome pyval.
Variable get_movie_credits : pyval -> outcome pyval.

Local Abbreviation page_loop :=
  (Ingestion.page_loop py_repr get_movie_details get_movie_credits).
Local Abbreviation fetch_pages :=
  (Ingestion.fetch_pages py_repr get_top_rated get_movie_details get_movie_credits).
Local Abbreviation fetch_movies_from_tmdb :=
  (Ingestion.fetch_movies_from_tmdb py_repr TMDB_API_KEY get_top_rated
     get_movie_details get_movie_credits).
Local Abbreviation usable :=
  (Ingestion.usable py_repr get_movie_details get_movie_credits).

Lemma page_loop_bound num_movies top_rated movies result :
  (Z.of_nat (List.length movies) < num_movies)%Z ->
  page_loop num_movies top_rated movies = Ret result ->
  (Z.of_nat (List.length result) <= num_movies)%Z.
Proof.
  revert movies. induction top_rated as [| m rest IH]; intros movies Hroom; simpl.
  - intros Hdone. injection Hdone as <-. lia.
  - destruct (subscript m "id") as [movie_id |]; simpl; [| discriminate].
    destruct (get_movie_details movie_id) as [details |]; [| now apply IH].
    destruct (get_movie_credits movie_id) as [credits |]; [| now apply IH].
    destruct (Ingestion.movie_record py_repr movie_id details credits)
      as [record |]; simpl; [| discriminate].
    destruct (Z.geb_spec (Z.of_nat (List.length (movies ++ [record]))) num_movies)
      as [Hfull | Hmore].
    + intros Hdone. injection Hdone as <-. rewrite length_app in *. simpl in *. lia.
    + now apply IH.
Qed.

Lemma fetch_pages_bound fuel num_movies page movies result :
  (Z.of_nat (List.length movies) <= Z.max num_movies 0)%Z ->
  fetch_pages fuel num_movies page movies = Some (Ret result) ->
  (Z.of_nat (List.length result) <= Z.max num_movies 0)%Z.
Proof.
  revert page movies. induction fuel as [| fuel IH]; intros page movies Hbound;
    simpl; destruct (Z.ltb_spec (Z.of_nat (List.length movies)) num_movies)
             as [Hroom | Hfull];
    try (intros Hdone; injection Hdone as <-; exact Hbound); [discriminate |].
  destruct (get_top_rated page) as [top_rated |];
    [| intros Hdone; injection Hdone as <-; exact Hbound].
  destruct (ConversationContext.iterate top_rated) as [page_movies |]; [| discriminate].
  destruct (page_loop num_movies page_movies movies) as [movies' |] eqn:Hpage;
    [| discriminate].
  apply IH. pose proof (page_loop_bound _ _ _ _ Hroom Hpage). lia.
Qed.

(** X28. [fetch_movies_from_tmdb] never returns more than [num_movies]
    movies. With a key, it returns the empty list without a request when
    [num_movies] is not positive, and it returns what it has, not an
    error, when the request for a page fails: the empty list when the
    first page fails. *)
Theorem fetch_is_bounded fuel tmdb_api_key num_movies :
  (forall movies,
     fetch_movies_from_tmdb fuel tmdb_api_key num_movies = Some (Ret movies) ->
     (Z.of_nat (List.length movies) <= Z.max num_movies 0)%Z)
  /\ (tmdb_api_key <> "" \/ TMDB_API_KEY <> "" ->
      ((num_movies <= 0)%Z ->
       fetch_movies_from_tmdb fuel tmdb_api_key num_movies = Some (Ret []))
      /\ (forall e, get_top_rated 1 = Raise e ->
            fetch_movies_from_tmdb (S fuel) tmdb_api_key num_movies = Some (Ret []))).
Proof.
  unfold Ingestion.fetch_movies_from_tmdb. split.
  - intros movies.
    destruct (__init__ (Some tmdb_api_key) TMDB_API_KEY); [| discriminate].
    apply fetch_pages_bound. simpl. lia.
  - intros Hkey. destruct (client_with_key _ _ Hkey) as (key & -> & _). split.
    + intros Hnone. destruct fuel; simpl;
        destruct (Z.ltb_spec 0 num_movies); try lia; reflexivity.
    + intros e Hfail. simpl. rewrite Hfail.
      destruct (0 <? num_movies)%Z; reflexivity.
Qed.

Lemma page_loop_usable num_movies top_rated movies :
  Forall usable top_rated ->
  (Z.of_nat (List.length movies) < num_movies)%Z ->
  exists result,
    page_loop num_movies top_rated movies = Ret result
    /\ Z.of_nat (List.length result)
       = Z.min (Z.of_nat (List.length movies + List.length top_rated)) num_movies.
Proof.
  intros Hall. revert movies.
  induction Hall as [| m rest Hm _ IH]; intros movies Hroom; simpl.
  - exists movies. split; [reflexivity |]. rewrite Nat.add_0_r. lia.
  - destruct Hm as (movie_id & details & credits & record & Hid & Hdetails & Hcredits & Hrecord).
    rewrite Hid. simpl. rewrite Hdetails, Hcredits, Hrecord. simpl.
    destruct (Z.geb_spec (Z.of_nat (List.length (movies ++ [record]))) num_movies)
      as [Hfull | Hmore].
    + exists (movies ++ [record]). split; [reflexivity |].
      rewrite length_app in *. simpl in *. lia.
    + destruct (IH (movies ++ [record]) Hmore) as (result & Hrun & Hlength).
      exists result. split; [exact Hrun |].
      rewrite Hlength, length_app. simpl. lia.
Qed.

(** X29. When the first page lists at least [num_movies] movies and every
    one of them can be turned into a record, [fetch_movies_from_tmdb]
    returns after that one page, with exactly [num_movies] movies. *)
Theorem fetch_fills_from_first_page fuel tmdb_api_key num_movies top_rated :
  (tmdb_api_key <> "" \/ TMDB_API_KEY <> "") ->
  (1 <= num_movies)%Z ->
  get_top_rated 1 = Ret (VList top_rated) ->
  Forall usable top_rated ->
  (num_movies <= Z.of_nat (List.length top_rated))%Z ->
  exists movies,
    fetch_movies_from_tmdb (S fuel) tmdb_api_key num_movies = Some (Ret movies)
    /\ Z.of_nat (List.length movies) = num_movies.
Proof.
  intros Hkey Hpositive Hpage Husable Henough.
  unfold Ingestion.fetch_movies_from_tmdb.
  destruct (client_with_key _ _ Hkey) as (key & -> & _).
  destruct (page_loop_usable num_movies top_rated [] Husable) as (movies & Hrun & Hlength);
    [simpl; lia |].
  exists movies. simpl in Hlength. split; [| lia].
  simpl. destruct (Z.ltb_spec 0 num_movies); [| lia].
  rewrite Hpage. simpl. rewrite Hrun.
  destruct fuel; simpl;
    destruct (Z.ltb_spec (Z.of_nat (List.length movies)) num_movies); try lia;
    reflexivity.
Qed.

(** X30. The loop of [fetch_movies_from_tmdb] ends only when enough
    movies are collected or a page request fails: against a catalogue
    that answers every page with an empty list it never returns, however
    many pages it may request. *)
Theorem fetch_never_ends_on_empty_pages tmdb_api_key num_movies :
  (tmdb_api_key <> "" \/ TMDB_API_KEY <> "") ->
  (1 <= num_movies)%Z ->
  (forall page, get_top_rated page = Ret (VList [])) ->
  forall fuel, fetch_movies_from_tmdb fuel tmdb_api_key num_movies = None.
Proof.
  intros Hkey Hpositive Hempty fuel.
  unfold Ingestion.fetch_movies_from_tmdb.
  destruct (client_with_key _ _ Hkey) as (key & -> & _).
  generalize 1%Z as page.
  induction fuel as [| fuel IH]; intros page; simpl;
    destruct (Z.ltb_spec 0 num_movies); try lia; [reflexivity |].
  rewrite Hempty. simpl. apply IH.
Qed.

End MoreIngestion.

(* ===================================================================== *)
(** ** Instances of the further properties                               *)
(* ===================================================================== *)

Section MoreInstances.
Import ConversationContext ChatService TmdbTools Runs Props Samples MoreSamples.

(** A full history of two messages takes a third. *)
Lemma full_history_evicts_oldest_witness :
  messages (snd (_add_message "user" (VStr "q2") full_of_two))
  = [mkMessage "assistant" (VStr "a1"); mkMessage "user" (VStr "q2")].
Proof.
  exact (full_history_evicts_oldest full_of_two "user" (VStr "q2")
           eq_refl ltac:(vm_compute; discriminate) eq_refl).
Defined.

(** A context of capacity [-1] never keeps a message. *)
Lemma negative_capacity_drops_from_front_witness :
  messages (snd (_add_message "user" (VStr "hi") negative_capacity)) = [].
Proof.
  destruct (negative_capacity_drops_from_front negative_capacity "user" (VStr "hi")
              eq_refl eq_refl) as [_ Hempty].
  exact (Hempty eq_refl).
Defined.

(** [get_recent(-1)] on a history of two messages. *)
Lemma get_recent_is_suffix_witness :
  fst (get_recent (Some (-1)%Z) two_messages)
  = Ret [mkMessage "assistant" (VStr "a1")].
Proof.
  destruct (get_recent_is_suffix two_messages (Some (-1)%Z)) as [_ Hnegative].
  exact (Hnegative (-1)%Z eq_refl eq_refl).
Defined.

(** The transcript of one turn. *)
Lemma transcript_lines_witness :
  build_context_history sample_repr None two_messages
  = (Ret ("User: q1" ++ nl ++ "Assistant: a1")%string, two_messages).
Proof.
  exact (transcript_lines sample_repr two_messages
           ltac:(repeat constructor)).
Defined.

(** Clearing the entity map of the scenario, and clearing a full history
    and appending to it. *)
Lemma clear_starts_over_witness :
  movies scenario_entities <> []
  /\ movies (snd (clear scenario_entities)) = []
  /\ chromadb_results (snd (clear scenario_entities)) = []
  /\ messages (snd (clear full_history)) = []
  /\ messages (snd (_add_message "user" (VStr "hi") (snd (clear full_history))))
     = [mkMessage "user" (VStr "hi")].
Proof.
  destruct (clear_starts_over sample_repr scenario_entities)
    as (_ & _ & Hmovies & Hlog & _).
  destruct (clear_starts_over sample_repr full_history)
    as (_ & Hmessages & _ & _ & _ & _ & _ & Hnext).
  split; [discriminate |]. split; [exact Hmovies |]. split; [exact Hlog |].
  split; [exact Hmessages |].
  exact (Hnext "user" (VStr "hi") eq_refl ltac:(vm_compute; discriminate)).
Defined.

(** The title Heat stored as a text instead of a list. *)
Lemma text_favorite_list_is_spread_witness :
  get_favorite_movies text_list_entry = (Ret "H, e, a, t", text_list_entry).
Proof.
  exact (text_favorite_list_is_spread text_list_entry "27205"
           [("favorite_movies", VStr "Heat")] "Heat"
           eq_refl eq_refl eq_refl ltac:(discriminate)).
Defined.

(** A [favorite_movies] field that is [None]. *)
Lemma unusable_favorite_list_raises_witness :
  get_favorite_movies none_list_entry = (Raise TypeError, none_list_entry).
Proof.
  exact (unusable_favorite_list_raises none_list_entry eq_refl eq_refl).
Defined.

(** A message of a tab and two spaces is rejected. *)
Lemma blank_texts_are_the_rejected_ones_witness :
  fst (generate_reply sample_repr (search_finds one_movie) agent_ready
         (agent_answers text_response)
         (VStr (String (ascii_of_nat 9) "  ")) false two_messages)
  = Raise ValueError.
Proof.
  apply (blank_texts_are_the_rejected_ones sample_repr (search_finds one_movie)
           agent_ready (agent_answers text_response) two_messages
           (String (ascii_of_nat 9) "  ") false).
  reflexivity.
Defined.

(** The test mode with a search that finds a movie. *)
Lemma chromadb_test_bypasses_agent_witness :
  fst (generate_reply sample_repr (search_finds one_movie) agent_unavailable
         agent_fails (VStr "Recommend a thriller") true two_messages)
  = Ret one_movie.
Proof.
  destruct (chromadb_test_bypasses_agent sample_repr (search_finds one_movie)
              agent_unavailable agent_fails agent_ready
              (agent_answers text_response) two_messages
              (VStr "Recommend a thriller")) as [_ Hreply].
  exact (Hreply "Recommend a thriller" eq_refl ltac:(vm_compute; discriminate)).
Defined.

(** A turn with a working search and agent. *)
Lemma healthy_turn_reply_witness :
  exists earlier,
    fst (generate_reply sample_repr (search_finds one_movie) agent_ready
           (agent_answers text_response) (VStr "Recommend a thriller") false
           two_messages)
    = Ret (match _chat_with_agent sample_repr agent_ready
                   (agent_answers text_response)
                   (mkPromptVars (earlier ++ "User: " ++ "Recommend a thriller")%string
                      "No favorite movies stored." one_movie
                      "Recommend a thriller") with
           | Ret answer => VStr answer
           | Raise _ =>
               VStr "Sorry, I am unable to generate a reply at the moment. Please try again later."
           end).
Proof.
  exact (healthy_turn_reply sample_repr (search_finds one_movie) agent_ready
           (agent_answers text_response) two_messages "Recommend a thriller"
           one_movie "No favorite movies stored."
           ltac:(vm_compute; discriminate) eq_refl eq_refl
           ltac:(vm_compute; discriminate)).
Defined.

(** A turn on an entity map that cannot be summarised. *)
Lemma unusable_entities_give_fallback_witness :
  fst (generate_reply sample_repr (search_finds one_movie) agent_ready
         (agent_answers text_response) (VStr "Recommend a thriller") false
         none_list_entry)
  = Ret (VStr "Sorry, I am unable to generate a reply at the moment. Please try again later.").
Proof.
  exact (unusable_entities_give_fallback sample_repr (search_finds one_movie)
           agent_ready (agent_answers text_response) none_list_entry
           "Recommend a thriller" TypeError
           ltac:(vm_compute; discriminate) eq_refl).
Defined.

(** The reply extracted from a structured response. *)
Lemma extracted_reply_is_trimmed_witness :
  strip "Watch Heat." = "Watch Heat.".
Proof.
  exact (extracted_reply_is_trimmed sample_repr agent_ready
           (agent_answers text_response) sample_vars text_response "Watch Heat."
           eq_refl eq_refl (or_intror eq_refl) eq_refl).
Defined.

(** Saving [603; 27205; 27205] over the stored list [603]. *)
Lemma save_favourites_appends_new_ids_witness :
  exists added,
    favourite_file (save_favourites [603; 27205; 27205]%Z (stored [603%Z]))
    = Stored ([603%Z] ++ added)
    /\ NoDup added
    /\ (forall x, In x added <-> In x [603; 27205; 27205]%Z /\ ~ In x [603%Z])
    /\ (NoDup [603%Z] -> NoDup ([603%Z] ++ added)).
Proof.
  exact (save_favourites_appends_new_ids [603; 27205; 27205]%Z (stored [603%Z])
           [603%Z] eq_refl eq_refl).
Defined.

Lemma save_favourites_idempotent_witness :
  save_favourites [27205%Z] (save_favourites [27205%Z] no_file)
  = save_favourites [27205%Z] no_file.
Proof. exact (save_favourites_idempotent [27205%Z] no_file eq_refl). Defined.


(** Deleting an id that is stored twice. *)
Lemma delete_removes_first_occurrence_witness :
  DeleteFavouriteTool_run finds_inception "Inception"
    (stored [603; 27205; 13; 27205]%Z)
  = ("Deleted 27205 from favourites.", stored [603; 13; 27205]%Z).
Proof.
  destruct (delete_removes_first_occurrence finds_inception "Inception" 27205%Z
              (stored [603; 27205; 13; 27205]%Z) [603; 27205; 13; 27205]%Z
              eq_refl eq_refl ltac:(simpl; tauto) eq_refl) as [Hrun _].
  exact Hrun.
Defined.

Lemma add_then_delete_restores_witness :
  snd (DeleteFavouriteTool_run finds_inception "Inception"
         (snd (AddFavouriteTool_run finds_inception "Inception" (stored [603%Z]))))
  = stored [603%Z].
Proof.
  exact (add_then_delete_restores finds_inception "Inception" 27205%Z [603%Z]
           eq_refl ltac:(simpl; intros [Hsame | []]; discriminate)).
Defined.

(** Seven cast members and one director among three crew members. *)
Lemma credits_keep_top_cast_and_directors_witness :
  TMDbClient.get_movie_credits (Ret credits_body)
  = Ret (VDict [("cast", VList (map (fun n => person n "Actor")
                                  ["a"; "b"; "c"; "d"; "e"]));
                ("director", VList [person "y" "Director"])]).
Proof.
  destruct (credits_keep_top_cast_and_directors
              [("cast", VList (map (fun n => person n "Actor")
                                 ["a"; "b"; "c"; "d"; "e"; "f"; "g"]));
               ("crew", VList [person "x" "Producer"; person "y" "Director";
                               person "z" "Editor"])]
              eq_refl eq_refl eq_refl) as [Hrun _].
  exact Hrun.
Defined.

(** The details tool without a key, and with one when the request
    fails. *)
Lemma details_tool_needs_a_key_witness :
  MovieDetails.GetMovieDetailsTool_run "" "" finds_inception
    (fun _ => Raise PyException) "Inception"
  = Raise UnboundLocalError
  /\ MovieDetails.GetMovieDetailsTool_run "key" "" finds_inception
       (fun _ => Raise PyException) "Inception"
     = Ret (VStr "Error getting details for movie ID 27205").
Proof.
  assert (Hgiven : "key" <> "") by discriminate.
  split.
  - destruct (details_tool_needs_a_key "" "" finds_inception
                (fun _ => Raise PyException) "Inception") as [Hnone _].
    exact (Hnone eq_refl eq_refl).
  - destruct (details_tool_needs_a_key "key" "" finds_inception
                (fun _ => Raise PyException) "Inception") as [_ Hkey].
    exact (Hkey (or_introl Hgiven)).
Defined.

(** A user who is not known yet. *)
Lemma get_context_gets_or_creates_witness :
  fst (Agent.get_context "bob" one_user) = fresh
  /\ Agent.lookup "ann" (snd (Agent.get_context "bob" one_user)) = Some two_messages.
Proof.
  destruct (get_context_gets_or_creates "bob" one_user)
    as (_ & Hnew & _ & _ & Hothers).
  split.
  - exact (Hnew eq_refl).
  - exact (Hothers "ann" ltac:(discriminate)).
Defined.

(** Bob sends a blank message: Ann's context is as before, Bob's is
    created and empty. *)
Lemma chat_touches_one_context_witness :
  Agent.lookup "ann"
    (snd (Agent.chat sample_repr (search_finds one_movie) agent_ready
            (agent_answers text_response) "bob" "  " one_user))
  = Some two_messages
  /\ fst (Agent.chat sample_repr (search_finds one_movie) agent_ready
            (agent_answers text_response) "bob" "  " one_user)
     = Raise ValueError
  /\ Agent.lookup "bob"
       (snd (Agent.chat sample_repr (search_finds one_movie) agent_ready
               (agent_answers text_response) "bob" "  " one_user))
     = Some fresh.
Proof.
  destruct (chat_touches_one_context sample_repr (search_finds one_movie)
              agent_ready (agent_answers text_response) "bob" "  " one_user)
    as (Hothers & _ & Hblank).
  split; [exact (Hothers "ann" ltac:(discriminate)) |].
  exact (Hblank eq_refl).
Defined.

Lemma two_requests_accumulate_witness :
  exists reply1 reply2 context,
    fst (Agent.chat sample_repr (search_finds one_movie) agent_ready
           (agent_answers text_response) "bob" "hi" one_user)
    = Ret (VDict [("reply", reply1)])
    /\ fst (Agent.chat sample_repr (search_finds one_movie) agent_ready
              (agent_answers text_response) "bob" "more"
              (snd (Agent.chat sample_repr (search_finds one_movie) agent_ready
                      (agent_answers text_response) "bob" "hi" one_user)))
       = Ret (VDict [("reply", reply2)])
    /\ Agent.lookup "bob"
         (snd (Agent.chat sample_repr (search_finds one_movie) agent_ready
                 (agent_answers text_response) "bob" "more"
                 (snd (Agent.chat sample_repr (search_finds one_movie) agent_ready
                         (agent_answers text_response) "bob" "hi" one_user))))
       = Some context
    /\ messages context
       = [mkMessage "user" (VStr "hi"); mkMessage "assistant" reply1;
          mkMessage "user" (VStr "more"); mkMessage "assistant" reply2].
Proof.
  exact (two_requests_accumulate sample_repr (search_finds one_movie) agent_ready
           (agent_answers text_response) "bob" "hi" "more" one_user eq_refl
           ltac:(vm_compute; discriminate) ltac:(vm_compute; discriminate)).
Defined.

(** A movie without an overview. *)
Lemma text_needs_six_fields_witness :
  Ingestion.build_text_representation sample_repr
    (VDict [("title", VStr "Heat"); ("genres", VStr "Crime");
            ("director", VStr "Michael Mann"); ("cast", VStr "Al Pacino");
            ("year", VStr "1995")])
  = Raise KeyError.
Proof.
  destruct (text_needs_six_fields sample_repr
              [("title", VStr "Heat"); ("genres", VStr "Crime");
               ("director", VStr "Michael Mann"); ("cast", VStr "Al Pacino");
               ("year", VStr "1995")]) as [_ Hmissing].
  exact (Hmissing eq_refl).
Defined.


(** Three movies asked of a catalogue of two pages in which the details
    of one movie cannot be fetched. *)
Lemma fetch_is_bounded_witness :
  (forall movies,
     Ingestion.fetch_movies_from_tmdb sample_repr "" two_pages details_but_two
       no_credits 5 "key" 3%Z = Some (Ret movies) ->
     (Z.of_nat (List.length movies) <= Z.max 3 0)%Z)
  /\ exists movies,
       Ingestion.fetch_movies_from_tmdb sample_repr "" two_pages details_but_two
         no_credits 5 "key" 3%Z = Some (Ret movies)
       /\ List.length movies = 3%nat.
Proof.
  split.
  - exact (proj1 (fetch_is_bounded sample_repr "" two_pages details_but_two
                    no_credits 5 "key" 3%Z)).
  - eexists. split; reflexivity.
Defined.

Lemma fetch_fills_from_first_page_witness :
  exists movies,
    Ingestion.fetch_movies_from_tmdb sample_repr "" one_page details_but_two
      no_credits 1 "key" 2%Z = Some (Ret movies)
    /\ Z.of_nat (List.length movies) = 2%Z.
Proof.
  assert (Hgiven : "key" <> "") by discriminate.
  assert (Hpositive : (1 <= 2)%Z) by lia.
  assert (Henough : (2 <= Z.of_nat (List.length [listed 1; listed 3]))%Z)
    by (simpl; lia).
  assert (Husable : Forall (Ingestion.usable sample_repr details_but_two no_credits)
                      [listed 1; listed 3]).
  { repeat constructor; do 4 eexists; repeat split; reflexivity. }
  exact (fetch_fills_from_first_page sample_repr "" one_page details_but_two
           no_credits 0 "key" 2%Z [listed 1; listed 3]
           (or_introl Hgiven) Hpositive eq_refl Husable Henough).
Defined.

Lemma fetch_never_ends_on_empty_pages_witness :
  Ingestion.fetch_movies_from_tmdb sample_repr "" empty_pages details_but_two
    no_credits 50 "key" 1%Z = None.
Proof.
  assert (Hgiven : "key" <> "") by discriminate.
  assert (Hpositive : (1 <= 1)%Z) by lia.
  exact (fetch_never_ends_on_empty_pages sample_repr "" empty_pages details_but_two
           no_credits "key" 1%Z (or_introl Hgiven) Hpositive
           (fun _ => eq_refl) 50%nat).
Defined.

End MoreInstances.
